(** * bearblog: the administrative panel of [blogs/admin.py]

    A shallow embedding of the computed list columns and the two bulk
    actions of the admin module, with the Python and Django primitives
    they are written with ([html.escape], [str.format], [format_html],
    [format_html_join], foreign-key descriptors with their per-instance
    cache, [Model.save], [print], [try]/[except]). *)

From Stdlib Require Import ZArith Ascii String List Lia.
From stdpp Require Import gmap strings pretty.

Local Open Scope Z_scope.

(** ** Python strings and Django's safe strings *)

Module Py.

Definition dquote : ascii := "034"%char.
Definition squote : ascii := "039"%char.
Definition dq : string := String dquote "".

(** [s.replace(c, rep)] for a one-character [c]. *)
Fixpoint replace (c : ascii) (rep : string) (s : string) : string :=
  match s with
  | EmptyString => ""
  | String a r =>
      (if Ascii.eqb a c then rep else String a "") +:+ replace c rep r
  end.

(** [html.escape(s, quote=True)]: five replacements, the ampersand first. *)
Definition html_escape (s : string) : string :=
  let s := replace "&" "&amp;" s in
  let s := replace "<" "&lt;" s in
  let s := replace ">" "&gt;" s in
  let s := replace dquote "&quot;" s in
  replace squote "&#x27;" s.

(** The same text, one character at a time. *)
Definition escape_char (c : ascii) : string :=
  if Ascii.eqb c "&" then "&amp;"
  else if Ascii.eqb c "<" then "&lt;"
  else if Ascii.eqb c ">" then "&gt;"
  else if Ascii.eqb c dquote then "&quot;"
  else if Ascii.eqb c squote then "&#x27;"
  else String c "".

Fixpoint escape_chars (s : string) : string :=
  match s with
  | EmptyString => ""
  | String a r => escape_char a +:+ escape_chars r
  end.

(** The values the admin code hands to the formatting functions: [None],
    a plain [str], a [SafeString], an [int] and a [bool]. *)
Inductive value :=
| VNone
| VStr (s : string)
| VSafe (s : string)
| VInt (n : Z)
| VBool (b : bool).

(** [str(v)] *)
Definition str (v : value) : string :=
  match v with
  | VNone => "None"
  | VStr s | VSafe s => s
  | VInt n => pretty n
  | VBool b => if b then "True" else "False"
  end.

(** [bool(v)] *)
Definition truthy (v : value) : bool :=
  match v with
  | VNone => false
  | VStr s | VSafe s => negb (String.eqb s "")
  | VInt n => negb (n =? 0)
  | VBool b => b
  end.

(** [django.utils.safestring.mark_safe] on a [str]. *)
Definition mark_safe (s : string) : value := VSafe s.

(** [django.utils.html.escape]: always escapes, the result is safe. *)
Definition escape (v : value) : value := VSafe (html_escape (str v)).

(** [django.utils.html.conditional_escape]: a value with [__html__] is
    taken as it is, anything else goes through [escape]. *)
Definition conditional_escape (v : value) : string :=
  match v with
  | VSafe s => s
  | _ => html_escape (str v)
  end.

(** *** [str.format] *)

Inductive field :=
| Auto
| Index (n : nat)
| Name (k : string).

Inductive piece :=
| Text (c : ascii)
| Field (f : field).

Definition is_digit (c : ascii) : bool :=
  (48 <=? nat_of_ascii c)%nat && (nat_of_ascii c <=? 57)%nat.

Fixpoint all_digits (s : string) : bool :=
  match s with
  | EmptyString => true
  | String c r => is_digit c && all_digits r
  end.

Fixpoint decimal (acc : nat) (s : string) : nat :=
  match s with
  | EmptyString => acc
  | String c r => decimal (10 * acc + (nat_of_ascii c - 48))%nat r
  end.

(** Conversions ([!r]), format specs ([:>8]) and attribute or item access
    in a field are not used by the admin module; [None] stands for them. *)
Definition plain_name (c : ascii) : bool :=
  negb (Ascii.eqb c "!" || Ascii.eqb c ":" || Ascii.eqb c "." || Ascii.eqb c "[").

Fixpoint all_plain (s : string) : bool :=
  match s with
  | EmptyString => true
  | String c r => plain_name c && all_plain r
  end.

Definition field_of (name : string) : option field :=
  if String.eqb name "" then Some Auto
  else if all_digits name then Some (Index (decimal 0 name))
  else if all_plain name then Some (Name name)
  else None.

(** The format string split into literal characters and replacement
    fields; [cur] is the field being read, if any. [None] is the
    [ValueError] of a malformed format string. *)
Fixpoint parse (cur : option string) (s : string) : option (list piece) :=
  match s with
  | EmptyString =>
      match cur with
      | None => Some []
      | Some _ => None
      end
  | String c r =>
      match cur with
      | Some name =>
          if Ascii.eqb c "}" then
            match field_of name, parse None r with
            | Some f, Some ps => Some (Field f :: ps)
            | _, _ => None
            end
          else if Ascii.eqb c "{" then None
          else parse (Some (name +:+ String c "")) r
      | None =>
          if Ascii.eqb c "{" then
            match r with
            | String c' r' =>
                if Ascii.eqb c' "{"
                then cons (Text "{") <$> parse None r'
                else parse (Some "") r
            | EmptyString => None
            end
          else if Ascii.eqb c "}" then
            match r with
            | String c' r' =>
                if Ascii.eqb c' "}"
                then cons (Text "}") <$> parse None r'
                else None
            | EmptyString => None
            end
          else cons (Text c) <$> parse None r
      end
  end.

(** Automatic and manual field numbering cannot be mixed. *)
Inductive numbering :=
| NStart
| NAuto (next : nat)
| NManual.

Fixpoint assoc (k : string) (kw : list (string * string)) : option string :=
  match kw with
  | [] => None
  | (k', v) :: kw' => if String.eqb k k' then Some v else assoc k kw'
  end.

Fixpoint render (ps : list piece) (st : numbering)
    (args : list string) (kwargs : list (string * string)) : option string :=
  match ps with
  | [] => Some ""
  | Text c :: ps' => String c <$> render ps' st args kwargs
  | Field Auto :: ps' =>
      match st with
      | NManual => None
      | NStart =>
          v ← args !! 0%nat; r ← render ps' (NAuto 1) args kwargs; Some (v +:+ r)
      | NAuto i =>
          v ← args !! i; r ← render ps' (NAuto (S i)) args kwargs; Some (v +:+ r)
      end
  | Field (Index i) :: ps' =>
      match st with
      | NAuto _ => None
      | _ => v ← args !! i; r ← render ps' NManual args kwargs; Some (v +:+ r)
      end
  | Field (Name k) :: ps' =>
      v ← assoc k kwargs; r ← render ps' st args kwargs; Some (v +:+ r)
  end.

(** [fmt.format( *args, **kwargs)] on strings. *)
Definition format (fmt : string) (args : list string)
    (kwargs : list (string * string)) : option string :=
  ps ← parse None fmt; render ps NStart args kwargs.

(** [django.utils.html.format_html]: every argument goes through
    [conditional_escape], the result is marked safe. [None] is the
    exception [str.format] raises. *)
Definition format_html (fmt : string) (args : list value)
    (kwargs : list (string * value)) : option value :=
  mark_safe <$>
    format fmt (conditional_escape <$> args)
               (prod_map id conditional_escape <$> kwargs).

(** [sep.join(items)] *)
Definition join (sep : string) (items : list string) : string :=
  String.concat sep items.

(** [django.utils.html.format_html_join] *)
Definition format_html_join (sep : value) (fmt : string)
    (args_generator : list (list value)) : option value :=
  items ← mapM (λ args, format_html fmt args []) args_generator;
  Some (mark_safe (join (conditional_escape sep) (str <$> items))).

End Py.

(** ** The record store *)

(** Modelled from the spec: the model classes of [blogs/models.py] and
    Django's [User] are not part of the admin module; the records below
    carry the fields the spec's data model lists and the admin code reads.
    Dates are timestamps. A user's primary key is its key in the table;
    the tables carry Django's names for them. *)
Record User := mkUser {
  username : string;
  email : string;
  is_active : bool;
  is_staff : bool;
  date_joined : Z
}.

Record UserSettings := mkUserSettings {
  settings_id : Z;
  settings_user_id : Z;
  settings_upgraded : bool;
  upgraded_date : option Z;
  order_id : option string
}.

Record Blog := mkBlog {
  pk : Z;
  user_id : Z;
  title : string;
  subdomain : string;
  domain : option string;
  reviewed : bool;
  upgraded : bool;
  created_date : Z
}.

Record Post := mkPost {
  post_pk : Z;
  post_blog_id : Z;
  post_title : string;
  published_date : Z
}.

Record Hit := mkHit {
  hit_post_id : Z;
  hit_created_date : Z;
  hash_id : string
}.

Record Store := mkStore {
  auth_user : gmap Z User;
  blogs_usersettings : list UserSettings;
  blogs_blog : list Blog;
  blogs_post : list Post;
  blogs_hit : list Hit
}.

(** ** Exceptions, the world and the monad of admin code *)

Inductive exn :=
| TooManyRedirects
| DoesNotExist
| ValueError
| OtherError (name : string).

Global Instance exn_eq_dec : EqDecision exn.
Proof. solve_decision. Defined.

(** What one call of the reachability checker does. *)
Inductive outcome :=
| Returns (b : bool)
| Raises (e : exn).

(** The persisted records, the lines printed so far and the blogs the
    reachability checker was called with, oldest first. *)
Record World := mkWorld {
  db : Store;
  stdout : list string;
  checked : list Blog
}.

Inductive result (A : Type) :=
| Ok (a : A)
| Raise (e : exn).
Arguments Ok {A} a.
Arguments Raise {A} e.

Definition M (A : Type) : Type := World → result A * World.

Global Instance M_ret : MRet M := λ A a w, (Ok a, w).
Global Instance M_bind : MBind M := λ A B f m w,
  match m w with
  | (Ok a, w') => f a w'
  | (Raise e, w') => (Raise e, w')
  end.

Definition raise {A} (e : exn) : M A := λ w, (Raise e, w).

(** [try: body except E: handler], where [catches] says which exceptions
    are instances of [E]. *)
Definition try_except {A} (body : M A) (catches : exn → bool) (handler : M A) : M A :=
  λ w, match body w with
       | (Raise e, w') => if catches e then handler w' else (Raise e, w')
       | r => r
       end.

(** [for x in xs: body(x)] *)
Fixpoint for_each {A} (xs : list A) (body : A → M unit) : M unit :=
  match xs with
  | [] => mret ()
  | x :: xs' => body x;; for_each xs' body
  end.

(** [print(line)] *)
Definition print (line : string) : M unit :=
  λ w, (Ok (), mkWorld (db w) (stdout w ++ [line]) (checked w)).

(** A Python exception out of a formatting function. *)
Definition of_option {A} (o : option A) : M A :=
  match o with
  | Some a => mret a
  | None => raise ValueError
  end.

(** ** Model instances *)

(** An instance holds the row it was loaded from and the related
    instances its descriptors have cached: the first [blog.user] queries
    the store, later ones return the cached object. *)
Record UserObj := mkUserObj {
  u_pk : Z;
  u_row : User;
  u_settings_cache : option UserSettings
}.

Record BlogObj := mkBlogObj {
  b_row : Blog;
  posts_count : Z;
  b_user_cache : option UserObj
}.

Record SettingsObj := mkSettingsObj {
  s_row : UserSettings;
  s_user_cache : option UserObj
}.

Record HitObj := mkHitObj {
  h_row : Hit;
  h_post_cache : option Post
}.

Definition set_blog_user (u : UserObj) (o : BlogObj) : BlogObj :=
  mkBlogObj (b_row o) (posts_count o) (Some u).

Definition set_settings_user (u : UserObj) (o : SettingsObj) : SettingsObj :=
  mkSettingsObj (s_row o) (Some u).

Definition set_is_active (v : bool) (u : UserObj) : UserObj :=
  mkUserObj (u_pk u)
    (mkUser (username (u_row u)) (email (u_row u)) v (is_staff (u_row u))
       (date_joined (u_row u)))
    (u_settings_cache u).

(** [User.objects.get(pk=k)] *)
Definition load_user (k : Z) : M UserObj :=
  λ w, match auth_user (db w) !! k with
       | Some r => (Ok (mkUserObj k r None), w)
       | None => (Raise DoesNotExist, w)
       end.

(** [blog.user]: the forward foreign-key descriptor. *)
Definition Blog_user (o : BlogObj) : M (UserObj * BlogObj) :=
  match b_user_cache o with
  | Some u => mret (u, o)
  | None => u ← load_user (user_id (b_row o)); mret (u, set_blog_user u o)
  end.

(** [settings.user] *)
Definition Settings_user (o : SettingsObj) : M (UserObj * SettingsObj) :=
  match s_user_cache o with
  | Some u => mret (u, o)
  | None =>
      u ← load_user (settings_user_id (s_row o)); mret (u, set_settings_user u o)
  end.

(** [user.settings]: the reverse one-to-one descriptor. *)
Definition User_settings (u : UserObj) : M (UserSettings * UserObj) :=
  match u_settings_cache u with
  | Some s => mret (s, u)
  | None =>
      λ w, match List.find (λ s, settings_user_id s =? u_pk u) (blogs_usersettings (db w)) with
           | Some s => (Ok (s, mkUserObj (u_pk u) (u_row u) (Some s)), w)
           | None => (Raise DoesNotExist, w)
           end
  end.

(** [user.blogs.all()]: a new query each time. *)
Definition User_blogs (u : UserObj) : M (list Blog) :=
  λ w, (Ok (List.filter (λ b, user_id b =? u_pk u) (blogs_blog (db w))), w).

(** [hit.post] *)
Definition Hit_post (o : HitObj) : M (Post * HitObj) :=
  match h_post_cache o with
  | Some p => mret (p, o)
  | None =>
      λ w, match List.find (λ p, post_pk p =? hit_post_id (h_row o)) (blogs_post (db w)) with
           | Some p => (Ok (p, mkHitObj (h_row o) (Some p)), w)
           | None => (Raise DoesNotExist, w)
           end
  end.

(** [user.save()]: the whole row is written under the instance's key. *)
Definition User_save (u : UserObj) : M unit :=
  λ w, (Ok (),
        mkWorld
          (mkStore (<[u_pk u := u_row u]> (auth_user (db w)))
             (blogs_usersettings (db w)) (blogs_blog (db w)) (blogs_post (db w))
             (blogs_hit (db w)))
          (stdout w) (checked w)).

(** [str(user)]: Django's [AbstractBaseUser.__str__] is the user name. *)
Definition User_str (u : UserObj) : string := username (u_row u).

(** What the admin module imports and calls but does not define: the URL
    resolver, the helpers of [blogs/helpers.py] and the properties and
    [__str__] methods of [blogs/models.py]. *)
Class Collaborators := {
  reverse : string → list Z → string;
  root : string → string;
  dynamic_useful_domain : Blog → string;
  Blog_str : Blog → string;
  Post_str : Post → string;
  check_connection : Blog → outcome
}.

(** [check_connection(blog)], recorded in the world. *)
Definition call_check_connection `{Collaborators} (o : BlogObj) : M bool :=
  λ w, let w' := mkWorld (db w) (stdout w) (checked w ++ [b_row o]) in
       match check_connection (b_row o) with
       | Returns b => (Ok b, w')
       | Raises e => (Raise e, w')
       end.

(** ** [UserSettingsAdmin] *)

Module UserSettingsAdmin.
Section columns.
Context `{Collaborators}.
Import Py.

Definition email (obj : SettingsObj) : M (value * SettingsObj) :=
  '(user, obj) ← Settings_user obj;
  mret (VStr (email (u_row user)), obj).

Definition date_joined (obj : SettingsObj) : M (value * SettingsObj) :=
  '(user, obj) ← Settings_user obj;
  mret (VInt (date_joined (u_row user)), obj).

Definition display_is_active (obj : SettingsObj) : M (value * SettingsObj) :=
  '(user, obj) ← Settings_user obj;
  mret (VBool (is_active (u_row user)), obj).

(** ['<a href="{0}" target="_blank">{1}</a>'] *)
Definition blog_link_format : string :=
  "<a href=" +:+ dq +:+ "{0}" +:+ dq +:+ " target=" +:+ dq +:+ "_blank" +:+ dq
    +:+ ">{1}</a>".

(** ['{} <a href="{}" target="_blank">[edit]</a>'] *)
Definition entry_format : string :=
  "{} <a href=" +:+ dq +:+ "{}" +:+ dq +:+ " target=" +:+ dq +:+ "_blank" +:+ dq
    +:+ ">[edit]</a>".

Definition blogs (obj : SettingsObj) : M (value * SettingsObj) :=
  '(user, obj) ← Settings_user obj;
  owned ← User_blogs user;
  let blogs_data :=
    (λ blog, (dynamic_useful_domain blog, subdomain blog,
              reverse "admin:blogs_blog_change" [pk blog])) <$> owned in
  args_generator ← of_option
    (mapM (λ '(url, subdomain, edit_url),
             link ← format_html blog_link_format [VStr url; VStr subdomain] [];
             Some [link; VStr edit_url])
          blogs_data);
  blogs_links ← of_option
    (format_html_join (mark_safe ", ") entry_format args_generator);
  mret (if truthy blogs_links then blogs_links else VStr "No blogs", obj).

End columns.
End UserSettingsAdmin.

(** ** [BlogAdmin] *)

Module BlogAdmin.
Section admin.
Context `{Collaborators}.
Import Py.

(** [Blog.objects.annotate(posts_count=Count('posts'))] *)
Definition get_queryset : M (list BlogObj) :=
  λ w, (Ok ((λ b, mkBlogObj b
                    (Z.of_nat (length (List.filter (λ p, post_blog_id p =? pk b)
                                         (blogs_post (db w)))))
                    None) <$> blogs_blog (db w)),
        w).

Definition post_count (obj : BlogObj) : value := VInt (posts_count obj).

(** ["<a href='http://{url}' target='_blank'>{url}</a>"] *)
Definition url_format : string :=
  "<a href='http://{url}' target='_blank'>{url}</a>".

(** [obj.domain] as a Python value. *)
Definition domain_value (obj : BlogObj) : value :=
  from_option VStr VNone (domain (b_row obj)).

Definition domain_url (obj : BlogObj) : result value :=
  if negb (truthy (domain_value obj)) then Ok VNone
  else match format_html url_format [] [("url", domain_value obj)] with
       | Some v => Ok v
       | None => Raise ValueError
       end.

Definition subdomain_url (obj : BlogObj) : result value :=
  match format_html url_format [] [("url", VStr (root (subdomain (b_row obj))))] with
  | Some v => Ok v
  | None => Raise ValueError
  end.

(** ['<a href="{url}">{username}</a>'] *)
Definition user_link_format : string :=
  "<a href=" +:+ dq +:+ "{url}" +:+ dq +:+ ">{username}</a>".

Definition user_link (obj : BlogObj) : M (value * BlogObj) :=
  '(user, obj) ← Blog_user obj;
  '(settings, user) ← User_settings user;
  let obj := set_blog_user user obj in
  let url := reverse "admin:blogs_usersettings_change" [settings_id settings] in
  '(user, obj) ← Blog_user obj;
  let username := escape (VStr (User_str user)) in
  v ← of_option
    (format_html user_link_format [] [("url", VStr url); ("username", username)]);
  mret (v, obj).

Definition user_email (obj : BlogObj) : M (value * BlogObj) :=
  '(user, obj) ← Blog_user obj;
  mret (VStr (email (u_row user)), obj).

Definition display_is_active (obj : BlogObj) : M (value * BlogObj) :=
  '(user, obj) ← Blog_user obj;
  mret (VBool (is_active (u_row user)), obj).

(** [self] and [request] are not used by the two actions. *)
Definition block_blog (queryset : list BlogObj) : M unit :=
  for_each queryset (λ blog,
    '(user, blog) ← Blog_user blog;
    let blog := set_blog_user (set_is_active false user) blog in
    '(user, blog) ← Blog_user blog;
    User_save user;;
    '(user, blog) ← Blog_user blog;
    print ("Blocked " +:+ Blog_str (b_row blog) +:+ " and banned " +:+ User_str user)).

Definition validate_domains (queryset : list BlogObj) : M unit :=
  for_each queryset (λ blog,
    print ("Checking " +:+ str (domain_value blog));;
    try_except
      (call_check_connection blog ≫= λ reachable : bool,
         if reachable then print "good" else print "borked!")
      (λ e, bool_decide (e = TooManyRedirects))
      (print "borked!")).

End admin.
End BlogAdmin.

(** ** [HitAdmin] *)

Module HitAdmin.
Section columns.
Context `{Collaborators}.
Import Py.

(** ['<a href="/mothership/blogs/post/{id}/change/">{post}</a>'] *)
Definition post_link_format : string :=
  "<a href=" +:+ dq +:+ "/mothership/blogs/post/{id}/change/" +:+ dq +:+ ">{post}</a>".

Definition post_link (obj : HitObj) : M (value * HitObj) :=
  '(post, obj) ← Hit_post obj;
  let id := VInt (post_pk post) in
  '(post, obj) ← Hit_post obj;
  let post := escape (VStr (Post_str post)) in
  v ← of_option (format_html post_link_format [] [("id", id); ("post", post)]);
  mret (v, obj).

End columns.
End HitAdmin.

(** ** The change list of [BlogAdmin] *)

Module ChangeList.
Section rows.
Context `{Collaborators}.
Import Py.

Definition list_display : list string :=
  ["title"; "reviewed"; "upgraded"; "display_is_active"; "subdomain_url";
   "domain_url"; "post_count"; "user_link"; "user_email"; "created_date"].

Definition lift {A} (r : result A) : M A := λ w, (r, w).

(** A name of [list_display] is a field of the model or a method of the
    admin class, called on the instance of the row. *)
Definition column (name : string) (obj : BlogObj) : M (value * BlogObj) :=
  if String.eqb name "title" then mret (VStr (title (b_row obj)), obj)
  else if String.eqb name "reviewed" then mret (VBool (reviewed (b_row obj)), obj)
  else if String.eqb name "upgraded" then mret (VBool (upgraded (b_row obj)), obj)
  else if String.eqb name "created_date" then mret (VInt (created_date (b_row obj)), obj)
  else if String.eqb name "display_is_active" then BlogAdmin.display_is_active obj
  else if String.eqb name "subdomain_url" then
    v ← lift (BlogAdmin.subdomain_url obj); mret (v, obj)
  else if String.eqb name "domain_url" then
    v ← lift (BlogAdmin.domain_url obj); mret (v, obj)
  else if String.eqb name "post_count" then mret (BlogAdmin.post_count obj, obj)
  else if String.eqb name "user_link" then BlogAdmin.user_link obj
  else if String.eqb name "user_email" then BlogAdmin.user_email obj
  else raise (OtherError "AttributeError").

(** The cells of one row, in the order of [names], on one instance. *)
Fixpoint columns (names : list string) (obj : BlogObj) : M (list value * BlogObj) :=
  match names with
  | [] => mret ([], obj)
  | name :: names' =>
      '(v, obj) ← column name obj;
      '(vs, obj) ← columns names' obj;
      mret (v :: vs, obj)
  end.

(** The cells of a rendering, without the instance and the world. *)
Definition cells (r : result (list value * BlogObj) * World) : result (list value) :=
  match r.1 with
  | Ok (vs, _) => Ok vs
  | Raise e => Raise e
  end.

End rows.
End ChangeList.

(** ** Reading generated markup *)

Module Markup.

(** Characters that cannot open or close a tag or an attribute value. *)
Definition inert (c : ascii) : bool :=
  negb (Ascii.eqb c "<" || Ascii.eqb c ">" || Ascii.eqb c Py.dquote
        || Ascii.eqb c Py.squote).

Fixpoint all_inert (s : string) : bool :=
  match s with
  | EmptyString => true
  | String c r => inert c && all_inert r
  end.

(** Text without angle brackets. *)
Fixpoint angle_free (s : string) : bool :=
  match s with
  | EmptyString => true
  | String c r => negb (Ascii.eqb c "<" || Ascii.eqb c ">") && angle_free r
  end.

(** The tags of a text, each without its angle brackets, and the tag
    left open at the end, if any. [cur] is the tag being read. *)
Fixpoint scan (cur : option string) (s : string) : list string * option string :=
  match s with
  | EmptyString => ([], cur)
  | String c r =>
      match cur with
      | None =>
          if Ascii.eqb c "<" then scan (Some "") r else scan None r
      | Some t =>
          if Ascii.eqb c ">" then
            let '(ts, cur') := scan None r in (t :: ts, cur')
          else scan (Some (t +:+ String c "")) r
      end
  end.

Definition tags (s : string) : list string := (scan None s).1.

Fixpoint contains (p s : string) : bool :=
  String.prefix p s ||
  match s with
  | EmptyString => false
  | String _ r => contains p r
  end.

(** The opening tag of a link. *)
Definition is_anchor (t : string) : bool := String.prefix "a " t.

Definition anchors (s : string) : list string := List.filter is_anchor (tags s).

(** [target="_blank"] or [target='_blank'] among the attributes. *)
Definition blank_target (t : string) : bool :=
  contains ("target=" +:+ Py.dq +:+ "_blank" +:+ Py.dq) t
  || contains "target='_blank'" t.

(** Every link of the markup opens in a new browsing context. *)
Definition links_open_new_context (s : string) : bool :=
  forallb blank_target (anchors s).

End Markup.

(** ** What the bulk actions are expected to leave behind *)

Definition deactivate (u : User) : User :=
  mkUser (username u) (email u) false (is_staff u) (date_joined u).

Definition owners (queryset : list BlogObj) : list Z :=
  (λ o, user_id (b_row o)) <$> queryset.

(** An instance as the query set yields it: no related object loaded. *)
Definition unloaded (o : BlogObj) : Prop := b_user_cache o = None.

Definition with_users (us : gmap Z User) (σ : Store) : Store :=
  mkStore us (blogs_usersettings σ) (blogs_blog σ) (blogs_post σ) (blogs_hit σ).

Definition owner_name (σ : Store) (o : BlogObj) : string :=
  from_option username "" (auth_user σ !! user_id (b_row o)).

Definition blocked_line `{Collaborators} (σ : Store) (o : BlogObj) : string :=
  "Blocked " +:+ Blog_str (b_row o) +:+ " and banned " +:+ owner_name σ o.

Definition checking_line (o : BlogObj) : string :=
  "Checking " +:+ Py.str (BlogAdmin.domain_value o).

(** The world after one record of [validate_domains] that printed [lines]
    after its [Checking] line. *)
Definition after_check (o : BlogObj) (lines : list string) (w : World) : World :=
  mkWorld (db w) (stdout w ++ checking_line o :: lines) (checked w ++ [b_row o]).

(** ** What a rendered row depends on *)

(** The user [blog.user] evaluates to: the cached instance, or the row of
    the store under the blog's foreign key. *)
Definition user_of (σ : Store) (o : BlogObj) : option UserObj :=
  match b_user_cache o with
  | Some u => Some u
  | None =>
      (λ r, mkUserObj (user_id (b_row o)) r None) <$> auth_user σ !! user_id (b_row o)
  end.

(** The settings [user.settings] evaluates to. *)
Definition settings_of (σ : Store) (u : UserObj) : option UserSettings :=
  match u_settings_cache u with
  | Some s => Some s
  | None => List.find (λ s, settings_user_id s =? u_pk u) (blogs_usersettings σ)
  end.

(** The record and its related data, as the columns of a blog see them. *)
Definition related (σ : Store) (o : BlogObj)
    : Blog * Z * option (Z * User * option UserSettings) :=
  (b_row o, posts_count o, (λ u, (u_pk u, u_row u, settings_of σ u)) <$> user_of σ o).

(** ** A small installation *)

Module Sample.
Import Py.

Definition site : Collaborators := {|
  reverse := λ name args,
    "/mothership/" +:+ name +:+ "/" +:+ join "/" (pretty <$> args) +:+ "/change/";
  root := λ s, s +:+ ".bearblog.dev";
  dynamic_useful_domain := λ b,
    from_option id (subdomain b +:+ ".bearblog.dev") (domain b);
  Blog_str := title;
  Post_str := post_title;
  check_connection := λ b,
    if pk b =? 1 then Returns true
    else if pk b =? 2 then Returns false
    else if pk b =? 3 then Raises TooManyRedirects
    else Raises (OtherError "ConnectionError")
|}.

Definition alice : User := mkUser "al<ice" "alice@example.org" true false 100.
Definition bob : User := mkUser "bob" "bob@example.org" false false 200.
Definition carol : User := mkUser "carol" "carol@example.org" true true 300.

Definition blog1 : Blog := mkBlog 1 10 "Garden" "garden" None false false 110.
Definition blog2 : Blog := mkBlog 2 10 "Notes" "notes" (Some "") false false 120.
Definition blog3 : Blog := mkBlog 3 20 "Bob" "bob" (Some "bob.example") true true 210.
Definition blog4 : Blog := mkBlog 4 20 "Loop" "loop" (Some "a<b.example") false false 220.
Definition blog5 : Blog := mkBlog 5 40 "Orphan" "orphan" None false false 500.

Definition store : Store :=
  mkStore {[10 := alice; 20 := bob; 30 := carol]}
    [mkUserSettings 7 10 false None None; mkUserSettings 8 20 true (Some 250) None;
     mkUserSettings 9 30 false None None]
    [blog1; blog2; blog3; blog4]
    [mkPost 1 1 "First <post>" 111; mkPost 2 1 "Second" 112; mkPost 3 3 "Hi" 211]
    [mkHit 1 113 "abc"].

Definition world : World := mkWorld store [] [].

(** A blog as the query set of the admin yields it. *)
Definition instance (b : Blog) : BlogObj :=
  mkBlogObj b
    (Z.of_nat (length (List.filter (λ p, post_blog_id p =? pk b) (blogs_post store))))
    None.

(** The settings record of alice, as the change list loads it. *)
Definition alice_settings : SettingsObj :=
  mkSettingsObj (mkUserSettings 7 10 false None None) None.

Definition first_hit : HitObj := mkHitObj (mkHit 1 113 "abc") None.

End Sample.

(** ** The markup the columns are expected to produce *)

Module Expected.
Import Py.

(** A link: the opening tag without its angle brackets, the content. *)
Definition anchor (tag content : string) : string :=
  "<" +:+ tag +:+ ">" +:+ content +:+ "</a>".

(** A link with a [target="_blank"] attribute after its [href]. *)
Definition blank_link (href content : string) : string :=
  anchor ("a href=" +:+ dq +:+ href +:+ dq +:+ " target=" +:+ dq +:+ "_blank" +:+ dq)
    content.

(** A link with an [href] and nothing else. *)
Definition plain_link (href content : string) : string :=
  anchor ("a href=" +:+ dq +:+ href +:+ dq) content.

Definition url_markup (u : string) : string :=
  anchor ("a href='http://" +:+ html_escape u +:+ "' target='_blank'") (html_escape u).

Definition user_link_markup `{Collaborators} (s : UserSettings) (u : User) : string :=
  plain_link (html_escape (reverse "admin:blogs_usersettings_change" [settings_id s]))
    (html_escape (username u)).

Definition post_link_markup `{Collaborators} (p : Post) : string :=
  plain_link ("/mothership/blogs/post/" +:+ html_escape (pretty (post_pk p)) +:+ "/change/")
    (html_escape (Post_str p)).

(** One entry of the blogs column: the link to the blog, a space and the
    [[edit]] link to the change page of the blog. *)
Definition entry_markup `{Collaborators} (b : Blog) : string :=
  blank_link (html_escape (dynamic_useful_domain b)) (html_escape (subdomain b))
    +:+ " "
    +:+ blank_link (html_escape (reverse "admin:blogs_blog_change" [pk b])) "[edit]".

(** The blogs a user owns, in the order of the table. *)
Definition owned (σ : Store) (u : UserObj) : list Blog :=
  List.filter (λ b, user_id b =? u_pk u) (blogs_blog σ).

End Expected.

(** The user [settings.user] evaluates to. *)
Definition settings_user_of (σ : Store) (o : SettingsObj) : option UserObj :=
  match s_user_cache o with
  | Some u => Some u
  | None =>
      (λ r, mkUserObj (settings_user_id (s_row o)) r None)
        <$> auth_user σ !! settings_user_id (s_row o)
  end.

(** The post [hit.post] evaluates to. *)
Definition post_of (σ : Store) (o : HitObj) : option Post :=
  match h_post_cache o with
  | Some p => Some p
  | None => List.find (λ p, post_pk p =? hit_post_id (h_row o)) (blogs_post σ)
  end.

(** ** Whole batches and changes of the store *)

(** The checker outcomes [validate_domains] survives. *)
Definition settled (out : outcome) : bool :=
  match out with
  | Returns _ => true
  | Raises e => bool_decide (e = TooManyRedirects)
  end.

(** The line printed for a settled outcome. *)
Definition verdict (out : outcome) : string :=
  match out with
  | Returns true => "good"
  | _ => "borked!"
  end.

Definition check_lines `{Collaborators} (o : BlogObj) : list string :=
  [checking_line o; verdict (check_connection (b_row o))].

(** The value a column shows, without the instance and the world. *)
Definition shown {A} (r : result (Py.value * A) * World) : result Py.value :=
  match r.1 with
  | Ok (v, _) => Ok v
  | Raise e => Raise e
  end.

(** The store with one more post, and with one more blog at the end of
    the blog table. *)
Definition add_post (p : Post) (σ : Store) : Store :=
  mkStore (auth_user σ) (blogs_usersettings σ) (blogs_blog σ) (p :: blogs_post σ)
    (blogs_hit σ).


(** Every blog of the table has its owner in the user table. *)
Definition owners_present (σ : Store) : Prop :=
  Forall (λ b, is_Some (auth_user σ !! user_id b)) (blogs_blog σ).

(** Text [html.escape] has nothing to replace in. *)
Fixpoint needs_no_escape (s : string) : bool :=
  match s with
  | EmptyString => true
  | String c r =>
      negb (Ascii.eqb c "&" || Ascii.eqb c "<" || Ascii.eqb c ">"
            || Ascii.eqb c Py.dquote || Ascii.eqb c Py.squote)
      && needs_no_escape r
  end.

(** * Properties *)

(** ** Strings and escaping *)

Section string_facts.
Import Py.

Lemma append_cons a s t : String a s +:+ t = String a (s +:+ t).
Proof. reflexivity. Qed.

Lemma append_assoc (a b c : string) : (a +:+ b) +:+ c = a +:+ b +:+ c.
Proof. induction a as [|x a IH]; [done|]. by rewrite !append_cons, IH. Qed.

Lemma append_nil_r (a : string) : a +:+ "" = a.
Proof. induction a as [|x a IH]; [done|]. by rewrite append_cons, IH. Qed.

Lemma replace_app c rep a b :
  replace c rep (a +:+ b) = replace c rep a +:+ replace c rep b.
Proof.
  induction a as [|x a IH]; [done|].
  rewrite append_cons. cbn [replace]. by rewrite IH, append_assoc.
Qed.

Lemma replace_other c rep a :
  Ascii.eqb a c = false → replace c rep (String a "") = String a "".
Proof. intros Hc. cbn [replace]. by rewrite Hc. Qed.

Lemma html_escape_cons a r :
  html_escape (String a r) = escape_char a +:+ html_escape r.
Proof.
  unfold html_escape. cbn [replace]. rewrite !replace_app.
  f_equal. unfold escape_char.
  destruct (Ascii.eqb a "&") eqn:E1; [reflexivity|].
  destruct (Ascii.eqb a "<") eqn:E2.
  { apply Ascii.eqb_eq in E2 as ->. reflexivity. }
  destruct (Ascii.eqb a ">") eqn:E3.
  { apply Ascii.eqb_eq in E3 as ->. reflexivity. }
  destruct (Ascii.eqb a dquote) eqn:E4.
  { apply Ascii.eqb_eq in E4 as ->. reflexivity. }
  destruct (Ascii.eqb a squote) eqn:E5.
  { apply Ascii.eqb_eq in E5 as ->. reflexivity. }
  by rewrite !replace_other.
Qed.

(** The five replacements in sequence are a character-wise map. *)
Lemma html_escape_chars s : html_escape s = escape_chars s.
Proof.
  induction s as [|a r IH]; [done|].
  rewrite html_escape_cons. cbn [escape_chars]. by rewrite IH.
Qed.

Lemma url_format_html v :
  format_html BlogAdmin.url_format [] [("url", v)] =
  Some (VSafe ("<a href='http://" +:+ conditional_escape v +:+ "' target='_blank'>"
               +:+ conditional_escape v +:+ "</a>")).
Proof. reflexivity. Qed.

Lemma user_link_format_html url name :
  format_html BlogAdmin.user_link_format [] [("url", url); ("username", name)] =
  Some (VSafe ("<a href=" +:+ dq +:+ conditional_escape url +:+ dq +:+ ">"
               +:+ conditional_escape name +:+ "</a>")).
Proof. reflexivity. Qed.

Lemma post_link_format_html id post :
  format_html HitAdmin.post_link_format [] [("id", id); ("post", post)] =
  Some (VSafe ("<a href=" +:+ dq +:+ "/mothership/blogs/post/" +:+ conditional_escape id
               +:+ "/change/" +:+ dq +:+ ">" +:+ conditional_escape post +:+ "</a>")).
Proof. reflexivity. Qed.

Lemma blog_link_format_html url name :
  format_html UserSettingsAdmin.blog_link_format [url; name] [] =
  Some (VSafe ("<a href=" +:+ dq +:+ conditional_escape url +:+ dq +:+ " target=" +:+ dq
               +:+ "_blank" +:+ dq +:+ ">" +:+ conditional_escape name +:+ "</a>")).
Proof. reflexivity. Qed.

Lemma entry_format_html link edit_url :
  format_html UserSettingsAdmin.entry_format [link; edit_url] [] =
  Some (VSafe (conditional_escape link +:+ " <a href=" +:+ dq
               +:+ conditional_escape edit_url +:+ dq +:+ " target=" +:+ dq
               +:+ "_blank" +:+ dq +:+ ">[edit]</a>")).
Proof. reflexivity. Qed.

End string_facts.

(** ** Tags of escaped text *)

Section markup_facts.
Import Py Markup.

Lemma all_inert_app a b : all_inert (a +:+ b) = all_inert a && all_inert b.
Proof.
  induction a as [|x a IH]; [done|].
  rewrite append_cons. cbn [all_inert]. by rewrite IH, andb_assoc.
Qed.

Lemma escape_char_inert c : all_inert (escape_char c) = true.
Proof.
  unfold escape_char.
  repeat (match goal with |- context [if ?b then _ else _] => destruct b eqn:? end;
          [reflexivity|]).
  cbn [all_inert]. unfold inert.
  repeat match goal with E : _ = false |- _ => rewrite E; clear E end.
  reflexivity.
Qed.

(** Escaped text holds no angle bracket and no quote. *)
Lemma html_escape_inert s : all_inert (html_escape s) = true.
Proof.
  rewrite html_escape_chars. induction s as [|a r IH]; [done|].
  cbn [escape_chars]. by rewrite all_inert_app, escape_char_inert, IH.
Qed.

Lemma scan_app cur a b :
  scan cur (a +:+ b) =
  let '(t1, c1) := scan cur a in let '(t2, c2) := scan c1 b in (t1 ++ t2, c2).
Proof.
  revert cur. induction a as [|x a IH]; intros cur.
  - cbn [scan]. change ("" +:+ b) with b. by destruct (scan cur b).
  - rewrite append_cons. cbn [scan]. destruct cur as [t|].
    + destruct (Ascii.eqb x ">").
      * rewrite IH. destruct (scan None a) as [t1 c1]. by destruct (scan c1 b).
      * apply IH.
    + destruct (Ascii.eqb x "<"); apply IH.
Qed.

Lemma angle_free_app a b : angle_free (a +:+ b) = angle_free a && angle_free b.
Proof.
  induction a as [|x a IH]; [done|].
  rewrite append_cons. cbn [angle_free]. by rewrite IH, andb_assoc.
Qed.

Lemma inert_angle_free s : all_inert s = true → angle_free s = true.
Proof.
  induction s as [|x s IH]; [done|]. cbn [all_inert angle_free].
  intros [Hx Hs]%andb_true_iff. rewrite IH by done. rewrite andb_true_r.
  unfold inert in Hx. apply negb_true_iff in Hx. apply negb_true_iff.
  repeat (apply orb_false_iff in Hx as [Hx ?]). by apply orb_false_iff.
Qed.

Lemma escape_angle_free s : angle_free (html_escape s) = true.
Proof. apply inert_angle_free, html_escape_inert. Qed.

(** Text without angle brackets is skipped outside a tag and taken
    whole inside one. *)
Lemma scan_angle_free cur s :
  angle_free s = true → scan cur s = ([], (λ t, t +:+ s) <$> cur).
Proof.
  revert cur. induction s as [|x s IH]; intros cur Hs.
  - cbn. destruct cur; cbn; by rewrite ?append_nil_r.
  - cbn [angle_free] in Hs. apply andb_true_iff in Hs as [Hx Hs].
    apply negb_true_iff, orb_false_iff in Hx as [Hlt Hgt].
    cbn [scan]. destruct cur as [t|]; cbn.
    + rewrite Hgt, IH by done. cbn. by rewrite append_assoc.
    + by rewrite Hlt, IH.
Qed.

Lemma tags_text s rest : angle_free s = true → tags (s +:+ rest) = tags rest.
Proof.
  intros Hs. unfold tags. rewrite scan_app, scan_angle_free by done. cbn.
  by destruct (scan None rest).
Qed.

Lemma tags_anchor tag content rest :
  angle_free tag = true → angle_free content = true →
  tags (Expected.anchor tag content +:+ rest) = tag :: "/a" :: tags rest.
Proof.
  intros Ht Hc. unfold tags, Expected.anchor. rewrite !append_assoc.
  change ("<" +:+ ?x) with (String "<" x). cbn [scan].
  rewrite scan_app, scan_angle_free by done. cbn [fmap option_fmap option_map].
  change ("" +:+ tag) with tag.
  change (">" +:+ ?x) with (String ">" x). cbn [scan].
  change (Ascii.eqb ">" ">") with true. cbv iota.
  rewrite scan_app, scan_angle_free by done. cbn [fmap option_fmap option_map].
  change ("</a>" +:+ rest) with (String "<" (String "/" (String "a" (String ">" rest)))).
  cbn. by destruct (scan None rest).
Qed.

Lemma anchors_text s rest : angle_free s = true → anchors (s +:+ rest) = anchors rest.
Proof. intros Hs. unfold anchors. by rewrite tags_text. Qed.

Lemma anchors_anchor tag content rest :
  angle_free tag = true → angle_free content = true →
  anchors (Expected.anchor tag content +:+ rest)
  = (if is_anchor tag then [tag] else []) ++ anchors rest.
Proof.
  intros Ht Hc. unfold anchors. rewrite tags_anchor by done. cbn [List.filter].
  change (is_anchor "/a") with false. by destruct (is_anchor tag).
Qed.

Lemma prefix_app p s : String.prefix p (p +:+ s) = true.
Proof.
  induction p as [|c p IH]; [by destruct s|].
  rewrite append_cons. cbn. by destruct (ascii_dec c c).
Qed.

Lemma contains_here p s : contains p (p +:+ s) = true.
Proof.
  destruct (p +:+ s) eqn:E; cbn [contains]; rewrite <- E, prefix_app; done.
Qed.

Lemma contains_app_r p a b : contains p b = true → contains p (a +:+ b) = true.
Proof.
  intros Hb. induction a as [|x a IH]; [done|].
  rewrite append_cons. cbn [contains]. rewrite IH. apply orb_true_r.
Qed.

(** A link with [target="_blank"] contributes one opening tag, and that
    tag carries the attribute, whatever the escaped parts are. *)
Lemma blank_link_anchors href content rest :
  angle_free href = true → angle_free content = true →
  ∃ tag, anchors (Expected.blank_link href content +:+ rest) = tag :: anchors rest ∧
         blank_target tag = true.
Proof.
  intros Hh Hc. unfold Expected.blank_link. eexists. split.
  - rewrite anchors_anchor; [reflexivity| |done].
    rewrite !angle_free_app, Hh. reflexivity.
  - unfold blank_target. apply orb_true_iff. left.
    do 4 apply contains_app_r. reflexivity.
Qed.

Lemma plain_link_tags href content :
  angle_free href = true → angle_free content = true →
  tags (Expected.plain_link href content) = ["a href=" +:+ dq +:+ href +:+ dq; "/a"].
Proof.
  intros Hh Hc. unfold Expected.plain_link.
  rewrite <- (append_nil_r (Expected.anchor _ _)), tags_anchor; [done| |done].
  rewrite !angle_free_app, Hh. reflexivity.
Qed.

Lemma url_markup_links u : links_open_new_context (Expected.url_markup u) = true.
Proof.
  unfold links_open_new_context, Expected.url_markup.
  rewrite <- (append_nil_r (Expected.anchor _ _)), anchors_anchor.
  - change (is_anchor ("a href='http://" +:+ ?x)) with true.
    cbn [app forallb]. rewrite andb_true_r.
    unfold blank_target. apply orb_true_iff. right.
    do 2 apply contains_app_r. reflexivity.
  - rewrite !angle_free_app, escape_angle_free. reflexivity.
  - apply escape_angle_free.
Qed.

End markup_facts.

(** ** Running admin code *)

Section action_facts.
Context `{Collaborators}.
Import BlogAdmin.

Lemma bind_run {A B} (m : M A) (f : A → M B) w :
  (m ≫= f) w = match m w with
               | (Ok a, w') => f a w'
               | (Raise e, w') => (Raise e, w')
               end.
Proof. reflexivity. Qed.

Lemma for_each_app {A} (xs ys : list A) (body : A → M unit) w :
  for_each (xs ++ ys) body w =
  match for_each xs body w with
  | (Ok _, w1) => for_each ys body w1
  | (Raise e, w1) => (Raise e, w1)
  end.
Proof.
  revert w. induction xs as [|x xs IH]; intros w; [done|].
  cbn [for_each app]. rewrite !bind_run.
  destruct (body x w) as [[[]|e] w1]; [apply IH|done].
Qed.

(** One record of [validate_domains]. *)
Lemma validate_domains_cons blog qs w :
  validate_domains (blog :: qs) w =
  match check_connection (b_row blog) with
  | Returns true => validate_domains qs (after_check blog ["good"] w)
  | Returns false => validate_domains qs (after_check blog ["borked!"] w)
  | Raises e =>
      if bool_decide (e = TooManyRedirects)
      then validate_domains qs (after_check blog ["borked!"] w)
      else (Raise e, after_check blog [] w)
  end.
Proof.
  unfold validate_domains. cbn [for_each].
  match goal with |- context [for_each qs ?f] => set (body := f) end.
  unfold mbind, M_bind, try_except, call_check_connection, print, after_check,
    checking_line.
  cbn [db stdout checked].
  destruct (check_connection (b_row blog)) as [[]|e]; cbn;
    rewrite <- ?(assoc_L (++)); try done.
  case_bool_decide; cbn; rewrite <- ?(assoc_L (++)); done.
Qed.

Lemma validate_domains_app pre post w :
  validate_domains (pre ++ post) w =
  match validate_domains pre w with
  | (Ok _, w1) => validate_domains post w1
  | (Raise e, w1) => (Raise e, w1)
  end.
Proof. apply for_each_app. Qed.

(** One record of [block_blog] whose owner is in the store. *)
Lemma block_blog_cons blog qs w r :
  unloaded blog →
  auth_user (db w) !! user_id (b_row blog) = Some r →
  block_blog (blog :: qs) w =
  block_blog qs
    (mkWorld
       (with_users (<[user_id (b_row blog) := deactivate r]> (auth_user (db w))) (db w))
       (stdout w ++ [blocked_line (db w) blog]) (checked w)).
Proof.
  intros Hc Hr. unfold block_blog. cbn [for_each].
  match goal with |- context [for_each qs ?f] => set (body := f) end.
  unfold mbind, M_bind, Blog_user at 1. rewrite Hc.
  unfold mbind, M_bind, load_user. rewrite Hr. cbn.
  unfold blocked_line, owner_name. by rewrite Hr.
Qed.

Lemma block_blog_cons_missing blog qs w :
  unloaded blog →
  auth_user (db w) !! user_id (b_row blog) = None →
  block_blog (blog :: qs) w = (Raise DoesNotExist, w).
Proof.
  intros Hc Hr. unfold block_blog. cbn [for_each].
  unfold mbind, M_bind, Blog_user at 1. rewrite Hc.
  unfold mbind, M_bind, load_user. by rewrite Hr.
Qed.

Lemma block_blog_app pre post w :
  block_blog (pre ++ post) w =
  match block_blog pre w with
  | (Ok _, w1) => block_blog post w1
  | (Raise e, w1) => (Raise e, w1)
  end.
Proof. apply for_each_app. Qed.

Lemma with_users_id σ : with_users (auth_user σ) σ = σ.
Proof. by destruct σ. Qed.

Lemma deactivate_inactive u : is_active u = false → deactivate u = u.
Proof. destruct u; cbn; by intros ->. Qed.

Lemma blocked_line_insert σ k r o :
  auth_user σ !! k = Some r →
  blocked_line (with_users (<[k := deactivate r]> (auth_user σ)) σ) o
  = blocked_line σ o.
Proof.
  intros Hr. unfold blocked_line, owner_name. cbn. do 3 f_equal.
  destruct (decide (k = user_id (b_row o))) as [<-|Hne].
  - by rewrite lookup_insert_eq, Hr.
  - by rewrite lookup_insert_ne.
Qed.

(** The whole batch of [block_blog] when every owner is in the store. *)
Lemma block_blog_run qs w :
  Forall unloaded qs →
  Forall (λ o, is_Some (auth_user (db w) !! user_id (b_row o))) qs →
  ∃ us : gmap Z User,
    block_blog qs w
    = (Ok (), mkWorld (with_users us (db w))
                (stdout w ++ (blocked_line (db w) <$> qs)) (checked w)) ∧
    ∀ k, us !! k = if decide (k ∈ owners qs)
                   then deactivate <$> auth_user (db w) !! k
                   else auth_user (db w) !! k.
Proof.
  revert w. induction qs as [|o qs IH]; intros w Hfresh Howner.
  - exists (auth_user (db w)). split.
    + rewrite with_users_id, app_nil_r. by destruct w.
    + intros k. rewrite decide_False; [done|]. cbn. apply not_elem_of_nil.
  - apply Forall_cons in Hfresh as [Ho Hfresh].
    apply Forall_cons in Howner as [[r Hr] Howner].
    rewrite (block_blog_cons _ _ _ r) by done.
    set (w1 := mkWorld _ _ _).
    destruct (IH w1) as (us & Hrun & Hus); [done| |].
    { eapply Forall_impl; [exact Howner|]. intros o' [r' Hr']. cbn.
      destruct (decide (user_id (b_row o) = user_id (b_row o'))) as [->|Hne].
      - rewrite lookup_insert_eq. eauto.
      - rewrite lookup_insert_ne by done. eauto. }
    exists us. split.
    + rewrite Hrun. subst w1. cbn. f_equal. f_equal.
      rewrite <- (assoc_L (++)). cbn. do 2 f_equal.
      apply list_fmap_ext. intros i o' _. by apply blocked_line_insert.
    + intros k. rewrite Hus. subst w1. cbn.
      destruct (decide (k = user_id (b_row o))) as [->|Hne].
      * rewrite lookup_insert_eq, Hr. cbn.
        rewrite (decide_True (P := _ ∈ _ :: _)) by apply list_elem_of_here.
        by destruct (decide _).
      * rewrite lookup_insert_ne by done.
        destruct (decide (k ∈ owners qs)) as [Hin|Hnin].
        -- rewrite decide_True; [done|]. by apply list_elem_of_further.
        -- rewrite decide_False; [done|]. intros [?|?]%elem_of_cons; done.
Qed.

End action_facts.

(** ** The bulk actions *)

Section bulk_actions.
Context `{Collaborators}.
Import BlogAdmin.

(** C1. For a record of the selection that [validate_domains] reaches
    (the records before it went through without an uncaught exception):
    when [check_connection] returns true, the record's [Checking] line is
    followed by the line [good]; when it returns false, by the line
    [borked!]; when it raises [TooManyRedirects], the exception is caught,
    the line [borked!] is printed, and the loop goes on with the next
    record just as in the other two cases. *)
Theorem validate_domains_outcomes pre blog post w w1 :
  validate_domains pre w = (Ok (), w1) →
  (check_connection (b_row blog) = Returns true →
     validate_domains (pre ++ blog :: post) w
     = validate_domains post (after_check blog ["good"] w1)) ∧
  (check_connection (b_row blog) = Returns false →
     validate_domains (pre ++ blog :: post) w
     = validate_domains post (after_check blog ["borked!"] w1)) ∧
  (check_connection (b_row blog) = Raises TooManyRedirects →
     validate_domains (pre ++ blog :: post) w
     = validate_domains post (after_check blog ["borked!"] w1)).
Proof.
  intros Hpre. rewrite validate_domains_app, Hpre, validate_domains_cons.
  repeat split; intros ->; done.
Qed.

(** C2. [block_blog] on a selection of freshly loaded blogs whose owners
    are in the store returns normally; afterwards every user who owns a
    selected blog is the same row with [is_active] false, every other
    user and every other table is as before, and one status line per
    record, naming the blog and its owner, has been printed in the order
    of the selection. *)
Theorem block_blog_deactivates_owners qs w :
  Forall unloaded qs →
  Forall (λ o, is_Some (auth_user (db w) !! user_id (b_row o))) qs →
  ∃ w',
    block_blog qs w = (Ok (), w') ∧
    (∀ k, k ∈ owners qs →
          auth_user (db w') !! k = deactivate <$> auth_user (db w) !! k) ∧
    (∀ k, k ∉ owners qs → auth_user (db w') !! k = auth_user (db w) !! k) ∧
    blogs_usersettings (db w') = blogs_usersettings (db w) ∧
    blogs_blog (db w') = blogs_blog (db w) ∧
    blogs_post (db w') = blogs_post (db w) ∧
    blogs_hit (db w') = blogs_hit (db w) ∧
    stdout w' = stdout w ++ (blocked_line (db w) <$> qs) ∧
    checked w' = checked w.
Proof.
  intros Hfresh Howner.
  destruct (block_blog_run qs w Hfresh Howner) as (us & Hrun & Hus).
  eexists. split; [exact Hrun|]. cbn.
  repeat split; intros k Hk; rewrite Hus.
  - by rewrite decide_True.
  - by rewrite decide_False.
Qed.

(** C3. When the checker raises anything but [TooManyRedirects] at a
    record, [validate_domains] ends with that exception: the world is the
    one the records before it left, plus the [Checking] line and the
    checker call of the failing record; no later record is looked at.
    Likewise [block_blog]: when a record fails (its owner cannot be
    loaded), the action ends with the exception in the world the records
    before it left, their deactivations and status lines included. *)
Theorem batch_aborts_without_rollback :
  (∀ pre blog post w w1 e,
     validate_domains pre w = (Ok (), w1) →
     check_connection (b_row blog) = Raises e →
     e ≠ TooManyRedirects →
     validate_domains (pre ++ blog :: post) w = (Raise e, after_check blog [] w1)) ∧
  (∀ pre blog post w w1,
     block_blog pre w = (Ok (), w1) →
     unloaded blog →
     auth_user (db w1) !! user_id (b_row blog) = None →
     block_blog (pre ++ blog :: post) w = (Raise DoesNotExist, w1)).
Proof.
  split.
  - intros pre blog post w w1 e Hpre He Hne.
    rewrite validate_domains_app, Hpre, validate_domains_cons, He.
    by rewrite bool_decide_eq_false_2.
  - intros pre blog post w w1 Hpre Hc Hnone.
    by rewrite block_blog_app, Hpre, block_blog_cons_missing.
Qed.

(** C7. [block_blog] twice on the same selection leaves the store that
    one application leaves, and the second application again prints one
    status line per record; when the owners are inactive to begin with,
    the first application already leaves the store as it was and prints
    its lines. *)
Theorem block_blog_idempotent qs w :
  Forall unloaded qs →
  Forall (λ o, is_Some (auth_user (db w) !! user_id (b_row o))) qs →
  ∃ w1 w2,
    block_blog qs w = (Ok (), w1) ∧
    block_blog qs w1 = (Ok (), w2) ∧
    db w2 = db w1 ∧
    stdout w2 = stdout w1 ++ (blocked_line (db w1) <$> qs) ∧
    (Forall (λ o, ∀ u, auth_user (db w) !! user_id (b_row o) = Some u →
                       is_active u = false) qs →
     db w1 = db w ∧ stdout w1 = stdout w ++ (blocked_line (db w) <$> qs)).
Proof.
  intros Hfresh Howner.
  destruct (block_blog_run qs w Hfresh Howner) as (us1 & Hrun1 & Hus1).
  set (w1 := mkWorld (with_users us1 (db w)) _ _) in Hrun1.
  assert (Howner1 : Forall (λ o, is_Some (auth_user (db w1) !! user_id (b_row o))) qs).
  { apply Forall_forall. intros o Ho. cbn. rewrite Hus1.
    rewrite Forall_forall in Howner. destruct (Howner o Ho) as [r ->].
    destruct (decide _); cbn; eauto. }
  destruct (block_blog_run qs w1 Hfresh Howner1) as (us2 & Hrun2 & Hus2).
  assert (Heq : us2 = us1).
  { apply map_eq. intros k. rewrite Hus2. cbn. rewrite Hus1.
    destruct (decide _); [|done]. by destruct (auth_user (db w) !! k). }
  exists w1. eexists. split; [exact Hrun1|]. split; [exact Hrun2|]. cbn.
  split; [by rewrite Heq|]. split; [done|].
  intros Hinactive. split; [|done].
  rewrite <- (with_users_id (db w)) at 2. unfold with_users. cbn. f_equal.
  apply map_eq. intros k. rewrite Hus1.
  destruct (decide _) as [Hin|]; [|done].
  apply list_elem_of_fmap in Hin as (o & -> & Ho).
  rewrite Forall_forall in Hinactive. specialize (Hinactive o Ho).
  destruct (auth_user (db w) !! user_id (b_row o)) as [u|]; [|done].
  cbn. by rewrite deactivate_inactive by eauto.
Qed.

(** C9. [validate_domains] leaves every table of the store as it found
    it, whatever the checker returns or raises; it only appends lines to
    the output and calls to the list of checker calls. *)
Theorem validate_domains_never_mutates qs w :
  db (validate_domains qs w).2 = db w ∧
  (∃ lines, stdout (validate_domains qs w).2 = stdout w ++ lines) ∧
  (∃ n, checked (validate_domains qs w).2 = checked w ++ (b_row <$> take n qs)).
Proof.
  revert w. induction qs as [|o qs IH]; intros w.
  - cbn. split; [done|]. split; [exists []|exists 0%nat]; by rewrite app_nil_r.
  - assert (Hstep : ∀ lines,
      db (validate_domains qs (after_check o lines w)).2 = db w ∧
      (∃ ls, stdout (validate_domains qs (after_check o lines w)).2 = stdout w ++ ls) ∧
      (∃ n, checked (validate_domains qs (after_check o lines w)).2
            = checked w ++ (b_row <$> take n (o :: qs)))).
    { intros lines. destruct (IH (after_check o lines w)) as (Hdb & [ls Hls] & [n Hn]).
      split; [done|]. split.
      - eexists. rewrite Hls. cbn. by rewrite <- (assoc_L (++)).
      - exists (S n). rewrite Hn. cbn. by rewrite <- (assoc_L (++)). }
    rewrite validate_domains_cons.
    destruct (check_connection (b_row o)) as [[]|e]; try apply Hstep.
    case_bool_decide; [apply Hstep|]. cbn.
    split; [done|]. split; [by eexists|]. by exists 1%nat.
Qed.

End bulk_actions.

Section bulk_action_witnesses.
Import BlogAdmin Sample.

Lemma validate_domains_outcomes_witness :
  validate_domains (H := site) [instance blog1] world
  = (Ok (), mkWorld store ["Checking None"; "good"] [blog1]) ∧
  validate_domains (H := site) [instance blog1; instance blog2] world
  = (Ok (), mkWorld store ["Checking None"; "good"; "Checking "; "borked!"]
              [blog1; blog2]) ∧
  validate_domains (H := site) [instance blog1; instance blog2; instance blog3] world
  = (Ok (), mkWorld store
              ["Checking None"; "good"; "Checking "; "borked!";
               "Checking bob.example"; "borked!"]
              [blog1; blog2; blog3]).
Proof.
  split; [|split].
  - exact (proj1 (validate_domains_outcomes (H := site)
                    [] (instance blog1) [] world world eq_refl) eq_refl).
  - exact (proj1 (proj2 (validate_domains_outcomes (H := site)
                    [instance blog1] (instance blog2) [] world _ eq_refl)) eq_refl).
  - exact (proj2 (proj2 (validate_domains_outcomes (H := site)
                    [instance blog1; instance blog2] (instance blog3) [] world _
                    eq_refl)) eq_refl).
Defined.

Lemma sample_unloaded bs : Forall unloaded (instance <$> bs).
Proof. induction bs; constructor; done. Defined.

Lemma block_blog_deactivates_owners_witness :
  ∃ w',
    block_blog (H := site) [instance blog1; instance blog2] world = (Ok (), w') ∧
    (∀ k, k ∈ owners [instance blog1; instance blog2] →
          auth_user (db w') !! k = deactivate <$> auth_user store !! k) ∧
    (∀ k, k ∉ owners [instance blog1; instance blog2] →
          auth_user (db w') !! k = auth_user store !! k) ∧
    blogs_usersettings (db w') = blogs_usersettings store ∧
    blogs_blog (db w') = blogs_blog store ∧
    blogs_post (db w') = blogs_post store ∧
    blogs_hit (db w') = blogs_hit store ∧
    stdout w' = ["Blocked Garden and banned al<ice"; "Blocked Notes and banned al<ice"] ∧
    checked w' = [].
Proof.
  apply (block_blog_deactivates_owners (H := site)
           [instance blog1; instance blog2] world).
  - apply (sample_unloaded [blog1; blog2]).
  - repeat constructor; exists alice; reflexivity.
Defined.

Lemma batch_aborts_without_rollback_witness :
  validate_domains (H := site)
    [instance blog1; instance blog4; instance blog2] world
  = (Raise (OtherError "ConnectionError"),
     mkWorld store ["Checking None"; "good"; "Checking a<b.example"] [blog1; blog4]) ∧
  block_blog (H := site) [instance blog1; instance blog5; instance blog3] world
  = (Raise DoesNotExist,
     mkWorld (with_users (<[10 := deactivate alice]> (auth_user store)) store)
       ["Blocked Garden and banned al<ice"] []).
Proof.
  split.
  - exact (proj1 (batch_aborts_without_rollback (H := site))
             [instance blog1] (instance blog4) [instance blog2] world _ _
             eq_refl eq_refl ltac:(discriminate)).
  - exact (proj2 (batch_aborts_without_rollback (H := site))
             [instance blog1] (instance blog5) [instance blog3] world _
             eq_refl eq_refl eq_refl).
Defined.

Lemma block_blog_idempotent_witness :
  ∃ w1 w2,
    block_blog (H := site) [instance blog3; instance blog4] world = (Ok (), w1) ∧
    block_blog (H := site) [instance blog3; instance blog4] w1 = (Ok (), w2) ∧
    db w2 = db w1 ∧
    stdout w2 = stdout w1 ++ (blocked_line (H := site) (db w1) <$> [instance blog3; instance blog4]) ∧
    (Forall (λ o, ∀ u, auth_user store !! user_id (b_row o) = Some u →
                       is_active u = false) [instance blog3; instance blog4] →
     db w1 = store ∧
     stdout w1 = [] ++ (blocked_line (H := site) store <$> [instance blog3; instance blog4])).
Proof.
  apply (block_blog_idempotent (H := site) [instance blog3; instance blog4] world).
  - apply (sample_unloaded [blog3; blog4]).
  - repeat constructor; exists bob; reflexivity.
Defined.

End bulk_action_witnesses.

(** ** Descriptors and columns in closed form *)

Section column_facts.
Context `{Collaborators}.
Import Py Markup Expected BlogAdmin.

Lemma Blog_user_run o w :
  Blog_user o w =
  (match user_of (db w) o with
   | Some u => Ok (u, set_blog_user u o)
   | None => Raise DoesNotExist
   end, w).
Proof.
  unfold Blog_user, user_of. destruct o as [row n [u|]]; [done|]. cbn.
  unfold mbind, M_bind, load_user. by destruct (auth_user (db w) !! user_id row).
Qed.

Lemma User_settings_run u w :
  User_settings u w =
  (match settings_of (db w) u with
   | Some s => Ok (s, mkUserObj (u_pk u) (u_row u) (Some s))
   | None => Raise DoesNotExist
   end, w).
Proof.
  unfold User_settings, settings_of. destruct u as [k r [s|]]; [done|]. cbn.
  by destruct (find _ _).
Qed.

Lemma Settings_user_run o w :
  Settings_user o w =
  (match settings_user_of (db w) o with
   | Some u => Ok (u, set_settings_user u o)
   | None => Raise DoesNotExist
   end, w).
Proof.
  unfold Settings_user, settings_user_of. destruct o as [row [u|]]; [done|]. cbn.
  unfold mbind, M_bind, load_user.
  by destruct (auth_user (db w) !! settings_user_id row).
Qed.

Lemma Hit_post_run o w :
  Hit_post o w =
  (match post_of (db w) o with
   | Some p => Ok (p, mkHitObj (h_row o) (Some p))
   | None => Raise DoesNotExist
   end, w).
Proof.
  unfold Hit_post, post_of. destruct o as [row [p|]]; [done|]. cbn.
  by destruct (find _ _).
Qed.

Lemma display_is_active_run o w :
  display_is_active o w =
  (match user_of (db w) o with
   | Some u => Ok (VBool (is_active (u_row u)), set_blog_user u o)
   | None => Raise DoesNotExist
   end, w).
Proof.
  unfold display_is_active. rewrite bind_run, Blog_user_run.
  by destruct (user_of (db w) o).
Qed.

Lemma user_email_run o w :
  user_email o w =
  (match user_of (db w) o with
   | Some u => Ok (VStr (email (u_row u)), set_blog_user u o)
   | None => Raise DoesNotExist
   end, w).
Proof.
  unfold user_email. rewrite bind_run, Blog_user_run.
  by destruct (user_of (db w) o).
Qed.

Lemma user_link_run o w :
  user_link o w =
  (match user_of (db w) o with
   | Some u =>
       match settings_of (db w) u with
       | Some s =>
           Ok (VSafe (user_link_markup s (u_row u)),
               set_blog_user (mkUserObj (u_pk u) (u_row u) (Some s))
                 (set_blog_user u o))
       | None => Raise DoesNotExist
       end
   | None => Raise DoesNotExist
   end, w).
Proof.
  unfold user_link. rewrite bind_run, Blog_user_run.
  destruct (user_of (db w) o) as [u|]; [|done].
  rewrite bind_run, User_settings_run.
  destruct (settings_of (db w) u) as [s|]; [|done].
  rewrite bind_run, Blog_user_run. cbn [user_of set_blog_user b_user_cache].
  rewrite user_link_format_html. cbn [conditional_escape escape str].
  unfold user_link_markup, plain_link, anchor, User_str. cbn [u_row].
  by rewrite !append_assoc.
Qed.

Lemma post_link_run o w :
  HitAdmin.post_link o w =
  (match post_of (db w) o with
   | Some p => Ok (VSafe (post_link_markup p), mkHitObj (h_row o) (Some p))
   | None => Raise DoesNotExist
   end, w).
Proof.
  unfold HitAdmin.post_link. rewrite bind_run, Hit_post_run.
  destruct (post_of (db w) o) as [p|]; [|done].
  rewrite bind_run, Hit_post_run. cbn [post_of h_post_cache h_row].
  rewrite post_link_format_html. cbn [conditional_escape escape str].
  unfold post_link_markup, plain_link, anchor. by rewrite !append_assoc.
Qed.

Lemma subdomain_url_run o :
  subdomain_url o = Ok (VSafe (url_markup (root (subdomain (b_row o))))).
Proof.
  unfold subdomain_url. rewrite url_format_html. cbn [conditional_escape str].
  unfold url_markup, anchor. by rewrite !append_assoc.
Qed.

Lemma domain_url_run o :
  domain_url o =
  match domain (b_row o) with
  | Some d => if String.eqb d "" then Ok VNone else Ok (VSafe (url_markup d))
  | None => Ok VNone
  end.
Proof.
  unfold domain_url, domain_value. destruct (domain (b_row o)) as [d|]; [|done].
  cbn [from_option truthy]. destruct (String.eqb d ""); [done|]. cbn [negb].
  rewrite url_format_html. cbn [conditional_escape str].
  unfold url_markup, anchor. by rewrite !append_assoc.
Qed.

Lemma join_cons sep e es :
  join sep (e :: es) = e +:+ (if es is [] then "" else sep +:+ join sep es).
Proof. destruct es; cbn; by rewrite ?append_nil_r. Qed.

Lemma mapM_fmap_total {A B C} (f : B → option C) (h : A → B) (g : A → C) l :
  (∀ x, f (h x) = Some (g x)) → mapM f (h <$> l) = Some (g <$> l).
Proof.
  intros Hf. induction l as [|x l IH]; [done|].
  cbn. by rewrite Hf, IH.
Qed.

Lemma join_entries_nonempty b bs :
  String.eqb (join ", " (entry_markup <$> b :: bs)) "" = false.
Proof. cbn [fmap list_fmap]. by rewrite join_cons. Qed.

Lemma blogs_run o w :
  UserSettingsAdmin.blogs o w =
  (match settings_user_of (db w) o with
   | Some u =>
       Ok (match owned (db w) u with
           | [] => VStr "No blogs"
           | bs => VSafe (join ", " (entry_markup <$> bs))
           end, set_settings_user u o)
   | None => Raise DoesNotExist
   end, w).
Proof.
  unfold UserSettingsAdmin.blogs. rewrite bind_run, Settings_user_run.
  destruct (settings_user_of (db w) o) as [u|]; [|done].
  rewrite bind_run. unfold User_blogs at 1. fold (owned (db w) u).
  set (bs := owned (db w) u).
  rewrite (mapM_fmap_total _ _ (λ b,
             [VSafe (blank_link (html_escape (dynamic_useful_domain b))
                       (html_escape (subdomain b)));
              VStr (reverse "admin:blogs_blog_change" [pk b])])).
  2:{ intros b. rewrite blog_link_format_html. cbn [conditional_escape str].
      unfold blank_link, anchor. by rewrite !append_assoc. }
  rewrite bind_run. change (of_option (Some ?x) w) with (Ok x, w). cbv beta iota.
  unfold format_html_join.
  rewrite (mapM_fmap_total _ _ (λ b, VSafe (entry_markup b))).
  2:{ intros b. rewrite entry_format_html. cbn [conditional_escape str].
      unfold entry_markup, blank_link, anchor. by rewrite !append_assoc. }
  cbn [mbind option_bind]. rewrite <- list_fmap_compose.
  rewrite bind_run. change (of_option (Some ?x) w) with (Ok x, w). cbv beta iota.
  cbn [mret M_ret conditional_escape mark_safe].
  destruct bs as [|b bs]; [done|].
  change (str ∘ (λ b0 : Blog, VSafe (entry_markup b0))) with entry_markup.
  unfold truthy, mark_safe. by rewrite join_entries_nonempty.
Qed.

Lemma entry_anchors b rest :
  ∃ t1 t2, anchors (entry_markup b +:+ rest) = t1 :: t2 :: anchors rest ∧
           blank_target t1 = true ∧ blank_target t2 = true.
Proof.
  unfold entry_markup. rewrite !append_assoc.
  destruct (blank_link_anchors
              (html_escape (dynamic_useful_domain b)) (html_escape (subdomain b))
              (" " +:+ blank_link (html_escape (reverse "admin:blogs_blog_change" [pk b]))
                         "[edit]" +:+ rest))
    as (t1 & -> & Ht1); [apply escape_angle_free..|].
  rewrite anchors_text by done.
  destruct (blank_link_anchors
              (html_escape (reverse "admin:blogs_blog_change" [pk b])) "[edit]" rest)
    as (t2 & -> & Ht2); [apply escape_angle_free|done|].
  by exists t1, t2.
Qed.

(** The list of [n] entries holds [2 * n] links, each with the attribute. *)
Lemma blogs_anchors bs :
  length (anchors (join ", " (entry_markup <$> bs))) = (2 * length bs)%nat ∧
  forallb blank_target (anchors (join ", " (entry_markup <$> bs))) = true.
Proof.
  induction bs as [|b bs IH]; [done|].
  cbn [fmap list_fmap]. rewrite join_cons.
  destruct (entry_anchors b (if entry_markup <$> bs is [] then "" else
                             ", " +:+ join ", " (entry_markup <$> bs)))
    as (t1 & t2 & -> & Ht1 & Ht2).
  cbn [length forallb]. rewrite Ht1, Ht2. cbn [andb].
  destruct bs as [|b' bs]; [done|].
  cbn [fmap list_fmap] in *. rewrite anchors_text by done.
  destruct IH as [-> ->]. split; [cbn; lia|done].
Qed.

End column_facts.

(** ** Rendering a row *)

Section row_facts.
Context `{Collaborators}.
Import Py Expected BlogAdmin ChangeList.

Lemma related_set_blog_user σ o u :
  user_of σ o = Some u → related σ (set_blog_user u o) = related σ o.
Proof. unfold related, user_of. cbn. by intros ->. Qed.

Lemma related_warm σ o u s :
  user_of σ o = Some u → settings_of σ u = Some s →
  related σ (set_blog_user (mkUserObj (u_pk u) (u_row u) (Some s)) (set_blog_user u o))
  = related σ o.
Proof. unfold related. cbn. intros -> Hs. cbn. by rewrite Hs. Qed.

Lemma related_user σ o1 o2 :
  related σ o1 = related σ o2 →
  match user_of σ o1, user_of σ o2 with
  | Some u1, Some u2 =>
      u_row u1 = u_row u2 ∧ settings_of σ u1 = settings_of σ u2
  | None, None => True
  | _, _ => False
  end.
Proof.
  unfold related. intros [= _ _ Hu].
  destruct (user_of σ o1), (user_of σ o2); cbn in Hu; by simplify_eq.
Qed.

(** Two instances that stand for the same record and related data, in
    two worlds with the same store, give the same cell; neither world
    changes, and the instances still stand for the same data. *)
Lemma column_agree name o1 o2 w1 w2 :
  db w1 = db w2 → related (db w1) o1 = related (db w1) o2 →
  match column name o1 w1, column name o2 w2 with
  | (Ok (v1, o1'), w1'), (Ok (v2, o2'), w2') =>
      v1 = v2 ∧ w1' = w1 ∧ w2' = w2 ∧
      related (db w1) o1' = related (db w1) o1 ∧
      related (db w1) o2' = related (db w1) o2
  | (Raise e1, w1'), (Raise e2, w2') => e1 = e2 ∧ w1' = w1 ∧ w2' = w2
  | _, _ => False
  end.
Proof.
  intros Hdb Hrel.
  assert (Hrow : b_row o1 = b_row o2) by (unfold related in Hrel; congruence).
  assert (Hcount : posts_count o1 = posts_count o2)
    by (unfold related in Hrel; congruence).
  assert (Hsub : subdomain_url o1 = subdomain_url o2)
    by (unfold subdomain_url; by rewrite Hrow).
  assert (Hdom : domain_url o1 = domain_url o2)
    by (unfold domain_url, domain_value; by rewrite Hrow).
  apply related_user in Hrel.
  unfold column.
  repeat (match goal with |- context [if String.eqb name ?s then _ else _] =>
            destruct (String.eqb name s) end;
          [ try (cbn; rewrite ?Hrow, ?Hcount; done) | ]).
  all: try done.
  all: unfold post_count; rewrite ?Hcount; try done.
  all: rewrite ?display_is_active_run, ?user_email_run, ?user_link_run, <- ?Hdb.
  all: try (unfold lift, mbind, M_bind; rewrite ?Hsub, ?Hdom;
            match goal with |- context [match ?r with Ok _ => _ | Raise _ => _ end] =>
              destruct r end; done).
  all: destruct (user_of (db w1) o1) as [u1|] eqn:E1,
                (user_of (db w1) o2) as [u2|] eqn:E2; try done;
         destruct Hrel as [Hr Hs]; rewrite <- ?Hs;
         try destruct (settings_of (db w1) u1) as [s|] eqn:E3; try done;
         symmetry in Hs;
         repeat split;
         first [ by rewrite Hr | by eauto using related_set_blog_user, related_warm ].
Qed.

Lemma columns_cons name names o w :
  columns (name :: names) o w =
  match column name o w with
  | (Ok (v, o'), w') =>
      match columns names o' w' with
      | (Ok (vs, o''), w'') => (Ok (v :: vs, o''), w'')
      | (Raise e, w'') => (Raise e, w'')
      end
  | (Raise e, w') => (Raise e, w')
  end.
Proof.
  cbn [columns]. unfold mbind, M_bind.
  destruct (column name o w) as [[[v o']|e] w']; [|done].
  by destruct (columns names o' w') as [[[vs o'']|e] w''].
Qed.

Lemma columns_agree names o1 o2 w1 w2 :
  db w1 = db w2 → related (db w1) o1 = related (db w1) o2 →
  match columns names o1 w1, columns names o2 w2 with
  | (Ok (vs1, o1'), w1'), (Ok (vs2, o2'), w2') =>
      vs1 = vs2 ∧ w1' = w1 ∧ w2' = w2 ∧
      related (db w1) o1' = related (db w1) o1 ∧
      related (db w1) o2' = related (db w1) o2
  | (Raise e1, w1'), (Raise e2, w2') => e1 = e2 ∧ w1' = w1 ∧ w2' = w2
  | _, _ => False
  end.
Proof.
  intros Hdb. revert o1 o2.
  induction names as [|name names IH]; intros o1 o2 Hrel; [done|].
  rewrite !columns_cons.
  pose proof (column_agree name o1 o2 w1 w2 Hdb Hrel) as Hcol.
  destruct (column name o1 w1) as [[[v1 o1']|e1] w1'],
           (column name o2 w2) as [[[v2 o2']|e2] w2']; try done.
  destruct Hcol as (-> & -> & -> & Hrel1 & Hrel2).
  assert (Hrel' : related (db w1) o1' = related (db w1) o2') by congruence.
  specialize (IH o1' o2' Hrel').
  destruct (columns names o1' w1) as [[[vs1 o1'']|e1] w1''],
           (columns names o2' w2) as [[[vs2 o2'']|e2] w2'']; try done.
  destruct IH as (-> & -> & -> & Hrel1' & Hrel2').
  repeat split; congruence.
Qed.

(** C8. Rendering columns of a blog (any of the names of [list_display],
    among them [subdomain_url], [domain_url], [post_count] and
    [user_link]) leaves the world as it is, and a second rendering gives
    the same cells, or raises the same exception: from the same instance
    in any world with the same store, and from the instance as the first
    rendering left it, with the related objects it has cached. *)
Theorem computed_columns_deterministic names obj w :
  ∃ r, columns names obj w = (r, w) ∧
    (∀ w2, db w2 = db w → cells (columns names obj w2) = cells (r, w)) ∧
    (∀ vs obj' w2, r = Ok (vs, obj') → db w2 = db w →
                   cells (columns names obj' w2) = Ok vs).
Proof.
  pose proof (columns_agree names obj obj w w eq_refl eq_refl) as Hself.
  destruct (columns names obj w) as [[[vs obj']|e] w'] eqn:Hrun.
  - destruct Hself as (_ & -> & _ & Hrel & _).
    exists (Ok (vs, obj')). split; [done|]. split.
    + intros w2 Hdb.
      pose proof (columns_agree names obj obj w w2 (eq_sym Hdb) eq_refl) as Hag.
      rewrite Hrun in Hag. unfold cells.
      destruct (columns names obj w2) as [[[vs2 o2]|e2] w2']; [|done].
      by destruct Hag as (-> & _).
    + intros vs0 obj0 w2 [= <- <-] Hdb.
      pose proof (columns_agree names obj obj' w w2 (eq_sym Hdb) (eq_sym Hrel)) as Hag.
      rewrite Hrun in Hag. unfold cells.
      destruct (columns names obj' w2) as [[[vs2 o2]|e2] w2']; [|done].
      by destruct Hag as (-> & _).
  - destruct Hself as (_ & -> & _).
    exists (Raise e). split; [done|]. split; [|done].
    intros w2 Hdb.
    pose proof (columns_agree names obj obj w w2 (eq_sym Hdb) eq_refl) as Hag.
    rewrite Hrun in Hag. unfold cells.
    destruct (columns names obj w2) as [[[vs2 o2]|e2] w2']; [done|].
    by destruct Hag as (-> & _).
Qed.

End row_facts.

(** ** The computed columns *)

Section computed_columns.
Context `{Collaborators}.
Import Py Markup Expected BlogAdmin.

(** C4. For a settings record whose user can be loaded, the blogs column
    is the plain string [No blogs] when the user owns no blog; when the
    user owns [n >= 1] blogs it is the safe string made of their [n]
    entries joined with a comma and a space, each entry being the link to
    the blog, a space and the [[edit]] link to the blog's change page; that
    string holds [2 * n] links. *)
Theorem blogs_column obj w user :
  settings_user_of (db w) obj = Some user →
  (owned (db w) user = [] →
     UserSettingsAdmin.blogs obj w
     = (Ok (VStr "No blogs", set_settings_user user obj), w)) ∧
  (owned (db w) user ≠ [] →
     UserSettingsAdmin.blogs obj w
     = (Ok (VSafe (join ", " (entry_markup <$> owned (db w) user)),
            set_settings_user user obj), w)) ∧
  length (entry_markup <$> owned (db w) user) = length (owned (db w) user) ∧
  length (anchors (join ", " (entry_markup <$> owned (db w) user)))
  = (2 * length (owned (db w) user))%nat.
Proof.
  intros Huser. rewrite blogs_run, Huser.
  split; [by intros ->|]. split; [by destruct (owned (db w) user)|].
  split; [apply length_fmap|apply blogs_anchors].
Qed.

(** C5, as amended. Every string a column embeds goes through
    [html.escape], whose result holds no angle bracket and no quote. The
    links of [subdomain_url], of [domain_url] and of the blogs list carry
    [target=_blank]; the user link of a blog and the post link of a hit
    are a single link whose opening tag holds the [href] and nothing
    else. *)
Theorem generated_markup_escaped :
  (∀ s, all_inert (html_escape s) = true) ∧
  (∀ obj, subdomain_url obj = Ok (VSafe (url_markup (root (subdomain (b_row obj)))))) ∧
  (∀ obj d, domain (b_row obj) = Some d → d ≠ "" →
            domain_url obj = Ok (VSafe (url_markup d))) ∧
  (∀ u, links_open_new_context (url_markup u) = true) ∧
  (∀ obj w v obj' w',
     UserSettingsAdmin.blogs obj w = (Ok (v, obj'), w') →
     (v = VStr "No blogs" ∨ ∃ bs, v = VSafe (join ", " (entry_markup <$> bs))) ∧
     links_open_new_context (str v) = true) ∧
  (∀ obj w v obj' w',
     user_link obj w = (Ok (v, obj'), w') →
     ∃ s u, v = VSafe (user_link_markup s u) ∧
            tags (str v)
            = ["a href=" +:+ dq
                 +:+ html_escape (reverse "admin:blogs_usersettings_change" [settings_id s])
                 +:+ dq; "/a"]) ∧
  (∀ obj w v obj' w',
     HitAdmin.post_link obj w = (Ok (v, obj'), w') →
     ∃ p, v = VSafe (post_link_markup p) ∧
          tags (str v)
          = ["a href=" +:+ dq
               +:+ ("/mothership/blogs/post/" +:+ html_escape (pretty (post_pk p))
                    +:+ "/change/")
               +:+ dq; "/a"]).
Proof.
  split; [apply html_escape_inert|].
  split; [apply subdomain_url_run|].
  split.
  { intros obj d Hd Hne. rewrite domain_url_run, Hd.
    by apply String.eqb_neq in Hne as ->. }
  split; [apply url_markup_links|].
  split.
  { intros obj w v obj' w'. rewrite blogs_run.
    destruct (settings_user_of (db w) obj) as [u|]; [|done].
    pose proof (proj2 (blogs_anchors (owned (db w) u))) as Hlinks.
    destruct (owned (db w) u) as [|b bs]; intros [= <- _ _].
    - by split; [left|].
    - split; [right; by exists (b :: bs)|exact Hlinks]. }
  split.
  { intros obj w v obj' w'. rewrite user_link_run.
    destruct (user_of (db w) obj) as [u|]; [|done].
    destruct (settings_of (db w) u) as [s|]; [|done].
    intros [= <- _ _]. exists s, (u_row u). split; [done|].
    apply plain_link_tags; apply escape_angle_free. }
  intros obj w v obj' w'. rewrite post_link_run.
  destruct (post_of (db w) obj) as [p|]; [|done].
  intros [= <- _ _]. exists p. split; [done|].
  apply plain_link_tags; [|apply escape_angle_free].
  rewrite !angle_free_app, escape_angle_free. reflexivity.
Qed.

(** C6. A blog with no custom domain has no domain link: the column is
    [None]. *)
Theorem domain_url_absent obj :
  domain (b_row obj) = None → domain_url obj = Ok VNone.
Proof. intros Hd. by rewrite domain_url_run, Hd. Qed.

(** C10. [domain_url] tests the domain for truthiness: it is [None]
    exactly when the domain is unset or the empty string, and for any
    other domain it is the link to it. *)
Theorem domain_url_truthiness obj :
  (domain_url obj = Ok VNone
   ↔ domain (b_row obj) = None ∨ domain (b_row obj) = Some "") ∧
  (∀ d, domain (b_row obj) = Some d → d ≠ "" →
        domain_url obj = Ok (VSafe (url_markup d))).
Proof.
  rewrite domain_url_run. destruct (domain (b_row obj)) as [d|].
  - destruct (String.eqb_spec d "") as [->|Hne].
    + split; [by split; [right|]|]. by intros d [= <-].
    + split; [|by intros d' [= <-]].
      split; [done|]. by intros [|[= ->]].
  - split; [by split; [left|]|done].
Qed.

End computed_columns.

Section computed_column_witnesses.
Import Py Markup Expected Sample.

Lemma blogs_column_witness :
  UserSettingsAdmin.blogs (H := site) alice_settings world
  = (Ok (VSafe (join ", " (entry_markup (H := site) <$> [blog1; blog2])),
         set_settings_user (mkUserObj 10 alice None) alice_settings), world) ∧
  length (anchors (join ", " (entry_markup (H := site) <$> [blog1; blog2]))) = 4%nat.
Proof.
  pose proof (blogs_column (H := site) alice_settings world (mkUserObj 10 alice None)
                eq_refl) as (_ & Hsome & _ & Hcount).
  split; [apply Hsome; discriminate|exact Hcount].
Defined.

Lemma domain_url_absent_witness :
  BlogAdmin.domain_url (instance blog1) = Ok VNone.
Proof. exact (domain_url_absent (instance blog1) eq_refl). Defined.

(** The user link of a blog and the post link of a hit are links
    without a [target] attribute. *)
Lemma user_link_same_context :
  (∃ v obj',
     BlogAdmin.user_link (H := site) (instance blog1) world = (Ok (v, obj'), world) ∧
     anchors (str v)
     = ["a href=" +:+ dq +:+ "/mothership/admin:blogs_usersettings_change/7/change/"
          +:+ dq] ∧
     links_open_new_context (str v) = false) ∧
  (∃ v obj',
     HitAdmin.post_link (H := site) first_hit world = (Ok (v, obj'), world) ∧
     anchors (str v)
     = ["a href=" +:+ dq +:+ "/mothership/blogs/post/1/change/" +:+ dq] ∧
     links_open_new_context (str v) = false).
Proof.
  split; do 2 eexists; (split; [reflexivity|]); split; reflexivity.
Qed.

End computed_column_witnesses.

(** ** Whole batches of [validate_domains] *)

Section whole_batches.
Context `{Collaborators}.
Import BlogAdmin.

Lemma validate_domains_settled qs w :
  Forall (λ o, settled (check_connection (b_row o)) = true) qs →
  validate_domains qs w
  = (Ok (), mkWorld (db w) (stdout w ++ concat (check_lines <$> qs))
              (checked w ++ (b_row <$> qs))).
Proof.
  revert w. induction qs as [|o qs IH]; intros w Hall.
  - cbn. rewrite !app_nil_r. by destruct w.
  - apply Forall_cons in Hall as [Ho Hall].
    rewrite validate_domains_cons. unfold check_lines at 1. cbn [fmap list_fmap concat].
    destruct (check_connection (b_row o)) as [[]|e]; cbn in Ho;
      [| |rewrite Ho]; rewrite IH by done; cbn; by rewrite <- !(assoc_L (++)).
Qed.

Lemma validate_domains_grows qs w :
  ∃ lines calls,
    stdout (validate_domains qs w).2 = stdout w ++ lines ∧
    checked (validate_domains qs w).2 = checked w ++ calls.
Proof.
  revert w. induction qs as [|o qs IH]; intros w.
  - exists [], []. cbn. by rewrite !app_nil_r.
  - assert (Hstep : ∀ ls, ∃ lines calls,
      stdout (validate_domains qs (after_check o ls w)).2 = stdout w ++ lines ∧
      checked (validate_domains qs (after_check o ls w)).2 = checked w ++ calls).
    { intros ls. destruct (IH (after_check o ls w)) as (lines & calls & -> & ->).
      do 2 eexists. cbn. by rewrite <- !(assoc_L (++)). }
    rewrite validate_domains_cons.
    destruct (check_connection (b_row o)) as [[]|e]; try apply Hstep.
    case_bool_decide; [apply Hstep|]. by do 2 eexists.
Qed.

(** X1. [validate_domains] returns normally exactly when no selected blog
    makes the checker raise an exception other than [TooManyRedirects]; then
    it has printed two lines per blog, the [Checking] line and the verdict,
    and has called the checker once per blog, all in the order of the
    selection. *)
Theorem validate_domains_completes qs w :
  ((validate_domains qs w).1 = Ok ()
   ↔ Forall (λ o, settled (check_connection (b_row o)) = true) qs) ∧
  (Forall (λ o, settled (check_connection (b_row o)) = true) qs →
   (validate_domains qs w).2
   = mkWorld (db w) (stdout w ++ concat (check_lines <$> qs))
       (checked w ++ (b_row <$> qs))).
Proof.
  split; [split|].
  - revert w. induction qs as [|o qs IH]; intros w; [done|].
    rewrite validate_domains_cons.
    destruct (check_connection (b_row o)) as [[]|e] eqn:Ho.
    + intros Hok. constructor; [by rewrite Ho|by eapply IH].
    + intros Hok. constructor; [by rewrite Ho|by eapply IH].
    + case_bool_decide as He; [|done].
      intros Hok. constructor; [|by eapply IH].
      rewrite Ho. cbn. by apply bool_decide_eq_true.
  - intros Hall. by rewrite validate_domains_settled.
  - intros Hall. by rewrite validate_domains_settled.
Qed.

(** X2. [validate_domains] has no guard on the domain: a blog with no
    custom domain is handed to the checker like any other, after the line
    [Checking None]. *)
Theorem validate_domains_checks_unset_domain blog qs w :
  domain (b_row blog) = None →
  ∃ lines calls,
    stdout (validate_domains (blog :: qs) w).2 = stdout w ++ "Checking None" :: lines ∧
    checked (validate_domains (blog :: qs) w).2 = checked w ++ b_row blog :: calls.
Proof.
  intros Hd.
  assert (Hstep : ∀ ls, ∃ lines calls,
    stdout (validate_domains qs (after_check blog ls w)).2
    = stdout w ++ "Checking None" :: lines ∧
    checked (validate_domains qs (after_check blog ls w)).2
    = checked w ++ b_row blog :: calls).
  { intros ls.
    destruct (validate_domains_grows qs (after_check blog ls w))
      as (lines & calls & -> & ->).
    exists (ls ++ lines), calls. cbn. unfold checking_line, domain_value.
    rewrite Hd. cbn. by rewrite <- !(assoc_L (++)). }
  rewrite validate_domains_cons.
  destruct (check_connection (b_row blog)) as [[]|e]; try apply Hstep.
  case_bool_decide; [apply Hstep|].
  exists [], []. cbn. unfold checking_line, domain_value. by rewrite Hd.
Qed.

End whole_batches.

(** ** [block_blog] and what the lists show afterwards *)

Section blocking.
Context `{Collaborators}.
Import Py BlogAdmin.

Lemma settings_display_is_active_run o w :
  UserSettingsAdmin.display_is_active o w =
  (match settings_user_of (db w) o with
   | Some u => Ok (VBool (is_active (u_row u)), set_settings_user u o)
   | None => Raise DoesNotExist
   end, w).
Proof.
  unfold UserSettingsAdmin.display_is_active. rewrite bind_run, Settings_user_run.
  by destruct (settings_user_of (db w) o).
Qed.

Lemma settings_email_run o w :
  UserSettingsAdmin.email o w =
  (match settings_user_of (db w) o with
   | Some u => Ok (VStr (email (u_row u)), set_settings_user u o)
   | None => Raise DoesNotExist
   end, w).
Proof.
  unfold UserSettingsAdmin.email. rewrite bind_run, Settings_user_run.
  by destruct (settings_user_of (db w) o).
Qed.

(** X3. The store [block_blog] leaves depends on the set of owners of the
    selection only: two selections with the same owners, in any order and
    with any repetitions, leave the same store. *)
Theorem block_blog_order_insensitive qs1 qs2 w :
  Forall unloaded qs1 → Forall unloaded qs2 →
  Forall (λ o, is_Some (auth_user (db w) !! user_id (b_row o))) qs1 →
  Forall (λ o, is_Some (auth_user (db w) !! user_id (b_row o))) qs2 →
  (∀ k, k ∈ owners qs1 ↔ k ∈ owners qs2) →
  (block_blog qs1 w).1 = Ok () ∧ (block_blog qs2 w).1 = Ok () ∧
  db (block_blog qs1 w).2 = db (block_blog qs2 w).2.
Proof.
  intros Hf1 Hf2 Ho1 Ho2 Hsame.
  destruct (block_blog_run qs1 w Hf1 Ho1) as (us1 & -> & Hus1).
  destruct (block_blog_run qs2 w Hf2 Ho2) as (us2 & -> & Hus2).
  split; [done|]. split; [done|]. cbn. f_equal.
  apply map_eq. intros k. rewrite Hus1, Hus2.
  destruct (decide (k ∈ owners qs1)) as [Hin|Hnin].
  - rewrite decide_True; [done|]. by apply Hsame.
  - rewrite decide_False; [done|]. by rewrite <- Hsame.
Qed.

(** X4. After [block_blog], the Active column shows [False] for every blog
    of an owner of the selection, in the blog list and in the settings list
    alike, and shows what it showed before for every other blog. *)
Theorem blocked_owners_shown_inactive qs w :
  Forall unloaded qs →
  Forall (λ o, is_Some (auth_user (db w) !! user_id (b_row o))) qs →
  ∃ w',
    block_blog qs w = (Ok (), w') ∧
    (∀ o, unloaded o → user_id (b_row o) ∈ owners qs →
          shown (display_is_active o w') = Ok (VBool false)) ∧
    (∀ s, s_user_cache s = None → settings_user_id (s_row s) ∈ owners qs →
          shown (UserSettingsAdmin.display_is_active s w') = Ok (VBool false)) ∧
    (∀ o, unloaded o → user_id (b_row o) ∉ owners qs →
          shown (display_is_active o w') = shown (display_is_active o w)).
Proof.
  intros Hfresh Howner.
  destruct (block_blog_run qs w Hfresh Howner) as (us & Hrun & Hus).
  eexists. split; [exact Hrun|].
  assert (Hin : ∀ k, k ∈ owners qs → ∃ r, us !! k = Some (deactivate r)).
  { intros k Hk. rewrite Hus, decide_True by done.
    apply list_elem_of_fmap in Hk as (o & -> & Ho).
    rewrite Forall_forall in Howner. destruct (Howner o Ho) as [r ->]. by exists r. }
  split; [|split].
  - intros o Hc Hk. rewrite display_is_active_run. unfold shown, user_of.
    rewrite Hc. cbn. destruct (Hin _ Hk) as [r ->]. done.
  - intros s Hc Hk. rewrite settings_display_is_active_run.
    unfold shown, settings_user_of. rewrite Hc. cbn.
    destruct (Hin _ Hk) as [r ->]. done.
  - intros o Hc Hk. rewrite !display_is_active_run. unfold shown, user_of.
    rewrite Hc. cbn. by rewrite Hus, decide_False.
Qed.

(** X5. The Active flag and the email of a user read the same in both
    lists: the columns of a blog and those of the settings record of its
    owner show the same values, or fail alike. *)
Theorem owner_columns_consistent o s w :
  unloaded o → s_user_cache s = None →
  user_id (b_row o) = settings_user_id (s_row s) →
  shown (display_is_active o w) = shown (UserSettingsAdmin.display_is_active s w) ∧
  shown (user_email o w) = shown (UserSettingsAdmin.email s w).
Proof.
  intros Ho Hs Hid.
  rewrite display_is_active_run, user_email_run, settings_display_is_active_run,
    settings_email_run.
  unfold shown, user_of, settings_user_of. rewrite Ho, Hs, Hid. cbn.
  by destruct (auth_user (db w) !! settings_user_id (s_row s)).
Qed.

(** X6. [get_queryset] yields the rows of the blog table in order, none
    with a user loaded, and leaves the world alone; when every blog has its
    owner in the user table, [block_blog] on any selection of these
    instances returns normally and the owner of every selected blog is
    inactive afterwards. *)
Theorem block_selection_of_queryset w sel :
  owners_present (db w) →
  ∃ qs,
    get_queryset w = (Ok qs, w) ∧
    Forall unloaded qs ∧
    b_row <$> qs = blogs_blog (db w) ∧
    (sel ⊆ qs →
     ∃ w', block_blog sel w = (Ok (), w') ∧
           ∀ o, o ∈ sel →
                is_active <$> auth_user (db w') !! user_id (b_row o) = Some false).
Proof.
  intros Hpresent. eexists. split; [reflexivity|].
  split; [by apply Forall_fmap, Forall_true|].
  split.
  { rewrite <- list_fmap_compose. apply list_fmap_id. }
  intros Hsel.
  assert (Hfresh : Forall unloaded sel).
  { apply Forall_forall. intros o Ho. apply Hsel in Ho.
    by apply list_elem_of_fmap in Ho as (b & -> & _). }
  assert (Howner : Forall (λ o, is_Some (auth_user (db w) !! user_id (b_row o))) sel).
  { apply Forall_forall. intros o Ho. apply Hsel in Ho.
    apply list_elem_of_fmap in Ho as (b & -> & Hb). cbn.
    unfold owners_present in Hpresent. rewrite Forall_forall in Hpresent. by apply Hpresent. }
  destruct (block_blog_run sel w Hfresh Howner) as (us & Hrun & Hus).
  eexists. split; [exact Hrun|]. intros o Ho. cbn. rewrite Hus.
  assert (Hk : user_id (b_row o) ∈ owners sel).
  { unfold owners. apply list_elem_of_fmap. by exists o. }
  rewrite decide_True by done.
  rewrite Forall_forall in Howner. by destruct (Howner o Ho) as [r ->].
Qed.

End blocking.

(** ** Counts, caches and whole rows *)

Section rows_and_counts.
Context `{Collaborators}.
Import Py Markup Expected BlogAdmin ChangeList.

(** X7. The post count of the query set follows the post table: with one
    more post in the store, the count of the blog the post belongs to is one
    higher and the count of every other blog is what it was. *)
Theorem post_count_follows_posts p w qs :
  get_queryset w = (Ok qs, w) →
  ∃ qs',
    get_queryset (mkWorld (add_post p (db w)) (stdout w) (checked w))
    = (Ok qs', mkWorld (add_post p (db w)) (stdout w) (checked w)) ∧
    Forall2 (λ o o',
               b_row o' = b_row o ∧
               post_count o'
               = VInt (posts_count o + (if post_blog_id p =? pk (b_row o) then 1 else 0)))
            qs qs'.
Proof.
  intros [= <-]. eexists. split; [reflexivity|].
  apply Forall2_fmap, Forall_Forall2_diag, Forall_true. intros b.
  split; [done|]. unfold post_count. cbn.
  destruct (post_blog_id p =? pk b); cbn [length]; f_equal; lia.
Qed.

(** X8. A link once rendered is rendered again from the objects the
    instance has cached: on the instance the first rendering returned, the
    user link and the post link come out the same in any world, whatever its
    store holds by then. *)
Theorem links_render_from_cache :
  (∀ obj w v obj' w',
     user_link obj w = (Ok (v, obj'), w') →
     ∀ w2, user_link obj' w2 = (Ok (v, obj'), w2)) ∧
  (∀ obj w v obj' w',
     HitAdmin.post_link obj w = (Ok (v, obj'), w') →
     ∀ w2, HitAdmin.post_link obj' w2 = (Ok (v, obj'), w2)).
Proof.
  split.
  - intros obj w v obj' w'. rewrite user_link_run.
    destruct (user_of (db w) obj) as [u|]; [|done].
    destruct (settings_of (db w) u) as [s|]; [|done].
    intros [= <- <- _] w2. by rewrite user_link_run.
  - intros obj w v obj' w'. rewrite post_link_run.
    destruct (post_of (db w) obj) as [p|]; [|done].
    intros [= <- <- _] w2. by rewrite post_link_run.
Qed.

Lemma column_title o w : column "title" o w = (Ok (VStr (title (b_row o)), o), w).
Proof. reflexivity. Qed.

Lemma column_reviewed o w :
  column "reviewed" o w = (Ok (VBool (reviewed (b_row o)), o), w).
Proof. reflexivity. Qed.

Lemma column_upgraded o w :
  column "upgraded" o w = (Ok (VBool (upgraded (b_row o)), o), w).
Proof. reflexivity. Qed.

Lemma column_created_date o w :
  column "created_date" o w = (Ok (VInt (created_date (b_row o)), o), w).
Proof. reflexivity. Qed.

Lemma column_display_is_active o w :
  column "display_is_active" o w = display_is_active o w.
Proof. reflexivity. Qed.

Lemma column_subdomain_url o w :
  column "subdomain_url" o w
  = (Ok (VSafe (url_markup (root (subdomain (b_row o)))), o), w).
Proof.
  change (column "subdomain_url" o w)
    with ((lift (subdomain_url o) ≫= λ v, mret (v, o)) w).
  by rewrite bind_run, subdomain_url_run.
Qed.

(** The cell of the domain column. *)
Lemma column_domain_url o w :
  column "domain_url" o w
  = (Ok (match domain (b_row o) with
         | Some d => if String.eqb d "" then VNone else VSafe (url_markup d)
         | None => VNone
         end, o), w).
Proof.
  change (column "domain_url" o w)
    with ((lift (domain_url o) ≫= λ v, mret (v, o)) w).
  rewrite bind_run, domain_url_run. unfold lift.
  destruct (domain (b_row o)) as [d|]; [|done]. by destruct (String.eqb d "").
Qed.

Lemma column_post_count o w :
  column "post_count" o w = (Ok (VInt (posts_count o), o), w).
Proof. reflexivity. Qed.

Lemma column_user_link o w : column "user_link" o w = user_link o w.
Proof. reflexivity. Qed.

Lemma column_user_email o w : column "user_email" o w = user_email o w.
Proof. reflexivity. Qed.

(** X9. Every name of [list_display] resolves: for a blog whose owner
    and whose owner's settings can be loaded, the row renders its ten cells, in
    the order of [list_display], and leaves the world as it was. *)
Theorem blog_row_renders obj w u s :
  user_of (db w) obj = Some u →
  settings_of (db w) u = Some s →
  ∃ obj',
    columns list_display obj w
    = (Ok ([VStr (title (b_row obj));
            VBool (reviewed (b_row obj));
            VBool (upgraded (b_row obj));
            VBool (is_active (u_row u));
            VSafe (url_markup (root (subdomain (b_row obj))));
            match domain (b_row obj) with
            | Some d => if String.eqb d "" then VNone else VSafe (url_markup d)
            | None => VNone
            end;
            VInt (posts_count obj);
            VSafe (user_link_markup s (u_row u));
            VStr (email (u_row u));
            VInt (created_date (b_row obj))], obj'), w).
Proof.
  intros Hu Hs. unfold list_display. eexists.
  rewrite columns_cons, column_title, columns_cons, column_reviewed,
    columns_cons, column_upgraded.
  rewrite columns_cons, column_display_is_active, display_is_active_run, Hu.
  rewrite columns_cons, column_subdomain_url, columns_cons, column_domain_url,
    columns_cons, column_post_count.
  rewrite columns_cons, column_user_link, user_link_run.
  cbn [user_of set_blog_user b_user_cache]. rewrite Hs.
  rewrite columns_cons, column_user_email, user_email_run.
  cbn [user_of set_blog_user b_user_cache].
  rewrite columns_cons, column_created_date. cbn. reflexivity.
Qed.


Lemma url_markup_tags u :
  tags (url_markup u) = ["a href='http://" +:+ html_escape u +:+ "' target='_blank'"; "/a"].
Proof.
  unfold url_markup.
  rewrite <- (append_nil_r (anchor _ _)), tags_anchor; [done| |apply escape_angle_free].
  rewrite !angle_free_app, escape_angle_free. reflexivity.
Qed.

(** X11. Whatever characters a domain or subdomain holds, the markup of
    [domain_url] and [subdomain_url] is one link and nothing else: its tags
    are the opening tag of the template, with the escaped address in the
    [href], and the closing tag. *)
Theorem url_columns_single_link obj v :
  subdomain_url obj = Ok v ∨ domain_url obj = Ok v →
  v = VNone ∨
  ∃ u, (u = root (subdomain (b_row obj)) ∨ domain (b_row obj) = Some u) ∧
       tags (str v)
       = ["a href='http://" +:+ html_escape u +:+ "' target='_blank'"; "/a"].
Proof.
  rewrite subdomain_url_run, domain_url_run. intros [[= <-]|Hdom].
  - right. eexists. split; [by left|]. apply url_markup_tags.
  - destruct (domain (b_row obj)) as [d|] eqn:Hd; [|left; congruence].
    destruct (String.eqb d ""); [left; congruence|].
    injection Hdom as <-. right. exists d. split; [by right|]. apply url_markup_tags.
Qed.



End rows_and_counts.

Section plain_addresses.
Context `{Collaborators}.
Import Py Expected BlogAdmin.

Lemma html_escape_plain s : needs_no_escape s = true → html_escape s = s.
Proof.
  rewrite html_escape_chars. induction s as [|c s IH]; [done|].
  cbn [needs_no_escape escape_chars]. intros [Hc Hs]%andb_true_iff.
  rewrite IH by done. apply negb_true_iff in Hc.
  repeat (apply orb_false_iff in Hc as [Hc ?]).
  unfold escape_char. by repeat match goal with E : _ = false |- _ => rewrite E; clear E end.
Qed.

(** X13. An address with none of the characters [&], [<], [>] and the two
    quotes comes out of the link columns as it went in: the domain link of
    such a domain, and the subdomain link of such a host, hold it verbatim as
    the address and as the text of the link. *)
Theorem plain_addresses_unchanged obj :
  (∀ d, domain (b_row obj) = Some d → d ≠ "" → needs_no_escape d = true →
        domain_url obj
        = Ok (VSafe ("<a href='http://" +:+ d +:+ "' target='_blank'>" +:+ d +:+ "</a>"))) ∧
  (needs_no_escape (root (subdomain (b_row obj))) = true →
   subdomain_url obj
   = Ok (VSafe ("<a href='http://" +:+ root (subdomain (b_row obj))
                +:+ "' target='_blank'>" +:+ root (subdomain (b_row obj)) +:+ "</a>"))).
Proof.
  split.
  - intros d Hd Hne Hplain. rewrite domain_url_run, Hd.
    apply String.eqb_neq in Hne as ->.
    unfold url_markup, anchor. rewrite (html_escape_plain d) by done.
    by rewrite !append_assoc.
  - intros Hplain. rewrite subdomain_url_run.
    unfold url_markup, anchor. rewrite html_escape_plain by done.
    by rewrite !append_assoc.
Qed.

End plain_addresses.

Section sample_runs.
Import Py Markup Expected BlogAdmin ChangeList Sample.

Lemma validate_domains_checks_unset_domain_witness :
  ∃ lines calls,
    stdout (validate_domains (H := site) [instance blog1; instance blog3] world).2
    = [] ++ "Checking None" :: lines ∧
    checked (validate_domains (H := site) [instance blog1; instance blog3] world).2
    = [] ++ blog1 :: calls.
Proof.
  exact (validate_domains_checks_unset_domain (H := site)
           (instance blog1) [instance blog3] world eq_refl).
Defined.

Lemma sample_owners_present : owners_present store.
Proof.
  repeat constructor; [exists alice|exists alice|exists bob|exists bob]; reflexivity.
Defined.

Lemma block_blog_order_insensitive_witness :
  (block_blog (H := site) [instance blog1; instance blog3] world).1 = Ok () ∧
  (block_blog (H := site) [instance blog4; instance blog2; instance blog1] world).1 = Ok () ∧
  db (block_blog (H := site) [instance blog1; instance blog3] world).2
  = db (block_blog (H := site) [instance blog4; instance blog2; instance blog1] world).2.
Proof.
  apply (block_blog_order_insensitive (H := site)
           [instance blog1; instance blog3]
           [instance blog4; instance blog2; instance blog1] world).
  - apply (sample_unloaded [blog1; blog3]).
  - apply (sample_unloaded [blog4; blog2; blog1]).
  - repeat constructor; [exists alice|exists bob]; reflexivity.
  - repeat constructor; [exists bob|exists alice|exists alice]; reflexivity.
  - intros k. cbn. rewrite !elem_of_cons, !elem_of_nil. tauto.
Defined.

Lemma blocked_owners_shown_inactive_witness :
  ∃ w',
    block_blog (H := site) [instance blog1] world = (Ok (), w') ∧
    (∀ o, unloaded o → user_id (b_row o) ∈ owners [instance blog1] →
          shown (display_is_active o w') = Ok (VBool false)) ∧
    (∀ s, s_user_cache s = None → settings_user_id (s_row s) ∈ owners [instance blog1] →
          shown (UserSettingsAdmin.display_is_active s w') = Ok (VBool false)) ∧
    (∀ o, unloaded o → user_id (b_row o) ∉ owners [instance blog1] →
          shown (display_is_active o w') = shown (display_is_active o world)).
Proof.
  apply (blocked_owners_shown_inactive (H := site) [instance blog1] world).
  - apply (sample_unloaded [blog1]).
  - repeat constructor; exists alice; reflexivity.
Defined.

Lemma owner_columns_consistent_witness :
  shown (display_is_active (instance blog1) world)
  = shown (UserSettingsAdmin.display_is_active alice_settings world) ∧
  shown (user_email (instance blog1) world)
  = shown (UserSettingsAdmin.email alice_settings world).
Proof.
  exact (owner_columns_consistent (instance blog1) alice_settings world
           eq_refl eq_refl eq_refl).
Defined.

Lemma block_selection_of_queryset_witness :
  ∃ qs,
    get_queryset world = (Ok qs, world) ∧
    Forall unloaded qs ∧
    b_row <$> qs = blogs_blog store ∧
    ([instance blog3] ⊆ qs →
     ∃ w', block_blog (H := site) [instance blog3] world = (Ok (), w') ∧
           ∀ o, o ∈ [instance blog3] →
                is_active <$> auth_user (db w') !! user_id (b_row o) = Some false).
Proof.
  exact (block_selection_of_queryset (H := site) world [instance blog3]
           sample_owners_present).
Defined.

Lemma post_count_follows_posts_witness :
  ∃ qs',
    get_queryset (mkWorld (add_post (mkPost 4 3 "New" 300) store) [] [])
    = (Ok qs', mkWorld (add_post (mkPost 4 3 "New" 300) store) [] []) ∧
    Forall2 (λ o o',
               b_row o' = b_row o ∧
               post_count o'
               = VInt (posts_count o + (if 3 =? pk (b_row o) then 1 else 0)))
            (instance <$> [blog1; blog2; blog3; blog4]) qs'.
Proof.
  exact (post_count_follows_posts (mkPost 4 3 "New" 300) world
           (instance <$> [blog1; blog2; blog3; blog4]) eq_refl).
Defined.

Lemma blog_row_renders_witness :
  ∃ obj',
    columns (H := site) list_display (instance blog3) world
    = (Ok ([VStr "Bob"; VBool true; VBool true; VBool false;
            VSafe (url_markup "bob.bearblog.dev");
            VSafe (url_markup "bob.example");
            VInt 1;
            VSafe (user_link_markup (H := site) (mkUserSettings 8 20 true (Some 250) None) bob);
            VStr "bob@example.org";
            VInt 210], obj'), world).
Proof.
  exact (blog_row_renders (H := site) (instance blog3) world (mkUserObj 20 bob None)
           (mkUserSettings 8 20 true (Some 250) None) eq_refl eq_refl).
Defined.


Lemma url_columns_single_link_witness :
  VSafe (url_markup "a<b.example") = VNone ∨
  ∃ u, (u = @root site (subdomain blog4) ∨ domain blog4 = Some u) ∧
       tags (url_markup "a<b.example")
       = ["a href='http://" +:+ html_escape u +:+ "' target='_blank'"; "/a"].
Proof.
  exact (url_columns_single_link (H := site) (instance blog4)
           (VSafe (url_markup "a<b.example")) (or_intror eq_refl)).
Defined.


Lemma plain_addresses_unchanged_witness :
  domain_url (instance blog3)
  = Ok (VSafe "<a href='http://bob.example' target='_blank'>bob.example</a>") ∧
  subdomain_url (H := site) (instance blog3)
  = Ok (VSafe "<a href='http://bob.bearblog.dev' target='_blank'>bob.bearblog.dev</a>").
Proof.
  split.
  - exact (proj1 (plain_addresses_unchanged (H := site) (instance blog3))
             "bob.example" eq_refl ltac:(discriminate) eq_refl).
  - exact (proj2 (plain_addresses_unchanged (H := site) (instance blog3)) eq_refl).
Defined.

Lemma validate_domains_completes_witness :
  (validate_domains (H := site) [instance blog1; instance blog2; instance blog3] world).2
  = mkWorld store
      ([] ++ concat (check_lines (H := site)
                       <$> [instance blog1; instance blog2; instance blog3]))
      ([] ++ [blog1; blog2; blog3]).
Proof.
  apply (proj2 (validate_domains_completes (H := site)
                  [instance blog1; instance blog2; instance blog3] world)).
  repeat constructor.
Defined.

Lemma links_render_from_cache_witness :
  ∃ v obj',
    user_link (H := site) (instance blog1) world = (Ok (v, obj'), world) ∧
    user_link (H := site) obj' (mkWorld (mkStore ∅ [] [] [] []) [] [])
    = (Ok (v, obj'), mkWorld (mkStore ∅ [] [] [] []) [] []).
Proof.
  do 2 eexists. split; [reflexivity|].
  exact (proj1 (links_render_from_cache (H := site))
           (instance blog1) world _ _ world eq_refl
           (mkWorld (mkStore ∅ [] [] [] []) [] [])).
Defined.

End sample_runs.
